(** * BrieflyAI (MangoDesk meeting summarizer): request handlers and
      recipient list, embedded from [server.js] and [App.tsx].

    The server is an Express application with three POST routes; each
    validates the parsed body, calls one external provider and shapes a
    JSON response.  The client keeps a recipient list and pre-checks the
    file it uploads.  Strings are JavaScript strings (sequences of UTF-16
    code units), request bodies are the values [JSON.parse] yields, and a
    handler is a computation that may throw and that leaves a trace of the
    provider calls and of the lines written to the server log. *)

From Stdlib Require Import NArith Ascii String.
From stdpp Require Import base decidable option list.

Local Open Scope N_scope.

(** ** JavaScript strings *)

Module JsString.

(** A string is its sequence of UTF-16 code units. *)
Definition code_unit := N.
Definition js_string := list code_unit.

(** String literals of the source are ASCII; [str] reads one. *)
Fixpoint str (s : string) : js_string :=
  match s with
  | EmptyString => []
  | String a rest => N_of_ascii a :: str rest
  end.

#[global] Arguments str : simpl never.

Definition nl : js_string := [10].
Definition dquote : js_string := [34].

(** [a === b] on strings. *)
Definition strict_eq (a b : js_string) : bool := bool_decide (a = b).

(** [s.endsWith(t)] *)
Definition endsWith (s t : js_string) : bool := bool_decide (t `suffix_of` s).

(** [xs.includes(s)] on an array of strings. *)
Definition includes (xs : list js_string) (s : js_string) : bool :=
  bool_decide (s ∈ xs).

(** ECMAScript WhiteSpace and LineTerminator code points, the ones
    [String.prototype.trim] strips: TAB, LF, VT, FF, CR, SP, NBSP,
    U+1680, U+2000..U+200A, LS, PS, U+202F, U+205F, U+3000, BOM. *)
Definition is_white_space (c : code_unit) : bool :=
  (9 <=? c) && (c <=? 13)
  || (c =? 32) || (c =? 160) || (c =? 5760)
  || (8192 <=? c) && (c <=? 8202)
  || (c =? 8232) || (c =? 8233) || (c =? 8239) || (c =? 8287)
  || (c =? 12288) || (c =? 65279).

Fixpoint trimStart (s : js_string) : js_string :=
  match s with
  | [] => []
  | c :: rest => if is_white_space c then trimStart rest else s
  end.

Definition trimEnd (s : js_string) : js_string := rev (trimStart (rev s)).

(** [s.trim()] *)
Definition trim (s : js_string) : js_string := trimEnd (trimStart s).

(** [xs.join(sep)] on strings already converted. *)
Fixpoint join_with (sep : js_string) (xs : list js_string) : js_string :=
  match xs with
  | [] => []
  | x :: rest =>
      match rest with
      | [] => x
      | _ :: _ => x ++ sep ++ join_with sep rest
      end
  end.

End JsString.
Export JsString.

(** ** JavaScript values, as [JSON.parse] and the handlers see them *)

Module JsValue.

#[local] Set Warnings "-register-all".

(** The handlers never compute with a number: they test it for
    truthiness and interpolate it into a string.  A number is kept as
    those two observations: whether it is [+0], [-0] or [NaN], and its
    [String(n)] text. *)
Record js_number := Num { is_zero_or_nan : bool; number_text : js_string }.

(** An object is the list of its own properties, each key once (of a
    key repeated in the text [JSON.parse] keeps one value). *)
Inductive js_value :=
| JUndefined
| JNull
| JBool (b : bool)
| JNum (n : js_number)
| JStr (s : js_string)
| JArr (elems : list js_value)
| JObj (fields : list (js_string * js_value)).

(** What a [throw] carries: [new Error(msg)], a [TypeError] of the
    runtime, or whatever a provider rejected with. *)
Inductive exn :=
| Error (msg : js_string)
| TypeError (msg : js_string)
| ProviderError (detail : js_value).

Inductive result (A : Type) :=
| Ok (a : A)
| Throw (e : exn).
Arguments Ok {A} a.
Arguments Throw {A} e.

(** Own property lookup in an object's field list. *)
Fixpoint own_property (fields : list (js_string * js_value)) (key : js_string)
  : option js_value :=
  match fields with
  | [] => None
  | (k, v) :: rest => if strict_eq k key then Some v else own_property rest key
  end.

(** [v.key] for a key that no prototype defines ([transcript],
    [instruction], [summary], [recipients]): the own property of an
    object, [undefined] on anything else that has properties. *)
Definition get (v : js_value) (key : js_string) : js_value :=
  match v with
  | JObj fields => default JUndefined (own_property fields key)
  | _ => JUndefined
  end.

(** [const { k1, k2 } = v] throws on [undefined] and [null]. *)
Definition destructurable (v : js_value) : result js_value :=
  match v with
  | JUndefined | JNull =>
      Throw (TypeError (str "Cannot destructure property of undefined or null"))
  | _ => Ok v
  end.

(** ToBoolean: [!v] is [negb (truthy v)]. *)
Definition truthy (v : js_value) : bool :=
  match v with
  | JUndefined | JNull => false
  | JBool b => b
  | JNum n => negb (is_zero_or_nan n)
  | JStr s => negb (bool_decide (s = []))
  | JArr _ | JObj _ => true
  end.

(** [Array.isArray(v)] *)
Definition isArray (v : js_value) : bool :=
  match v with JArr _ => true | _ => false end.

Definition cannot_convert : exn :=
  TypeError (str "Cannot convert object to primitive value").

Section Join.

(** [Array.prototype.join] over a given conversion of the elements. *)
Variable element_to_string : js_value -> result js_string.

(** The string an array element contributes: [undefined] and [null]
    contribute nothing. *)
Definition element_string_by (x : js_value) : result js_string :=
  match x with
  | JUndefined | JNull => Ok []
  | _ => element_to_string x
  end.

(** The elements converted left to right, stopping at the first
    throw. *)
Fixpoint element_strings_by (elems : list js_value) : result (list js_string) :=
  match elems with
  | [] => Ok []
  | x :: rest =>
      match element_string_by x with
      | Throw e => Throw e
      | Ok s =>
          match element_strings_by rest with
          | Throw e => Throw e
          | Ok ss => Ok (s :: ss)
          end
      end
  end.

Definition join_by (elems : list js_value) (sep : js_string) : result js_string :=
  match element_strings_by elems with
  | Throw e => Throw e
  | Ok ss => Ok (join_with sep ss)
  end.

End Join.

(** ToString, as a template literal and [Array.prototype.join] apply
    it.  An array prints as its elements joined by a comma.  A plain
    object prints through [Object.prototype.toString]; one that carries
    an own [toString] property (never callable in parsed JSON) has no
    primitive value and the conversion throws. *)
Fixpoint to_string (v : js_value) : result js_string :=
  match v with
  | JUndefined => Ok (str "undefined")
  | JNull => Ok (str "null")
  | JBool true => Ok (str "true")
  | JBool false => Ok (str "false")
  | JNum n => Ok (number_text n)
  | JStr s => Ok s
  | JArr elems => join_by to_string elems (str ",")
  | JObj fields =>
      match own_property fields (str "toString") with
      | Some _ => Throw cannot_convert
      | None => Ok (str "[object Object]")
      end
  end.

Definition element_string : js_value -> result js_string :=
  element_string_by to_string.

Definition element_strings : list js_value -> result (list js_string) :=
  element_strings_by to_string.

(** [elems.join(sep)] *)
Definition join : list js_value -> js_string -> result js_string :=
  join_by to_string.

End JsValue.
Export JsValue.

(** ** Computations that throw and leave a trace *)

Module Effects.

Record mail_options := MailOptions {
  from : js_value;
  to : js_string;
  subject : js_string;
  html : js_string
}.

(** What a handler does to the outside world, in order: the calls it
    issues to the two providers and the lines it writes to the server
    log. *)
Inductive effect :=
| GenerateContent (model prompt : js_string)
| SendMail (mailOptions : mail_options)
| ConsoleError (label : js_string) (error : exn).

Definition trace := list effect.

(** A computation ends with a value or a throw, having left a trace. *)
Definition M (A : Type) : Type := result A * trace.

#[export] Instance M_ret : MRet M := fun A a => (Ok a, []).

#[export] Instance M_bind : MBind M := fun A B k m =>
  match m with
  | (Ok a, t) => let '(r, t') := k a in (r, t ++ t')
  | (Throw e, t) => (Throw e, t)
  end.

Definition lift {A} (r : result A) : M A := (r, []).

Definition emit (e : effect) : M unit := (Ok tt, [e]).

(** [try { body } catch (error) { handler }] *)
Definition try_catch {A} (body : M A) (handler : exn -> M A) : M A :=
  match body with
  | (Ok a, t) => (Ok a, t)
  | (Throw e, t) => let '(r, t') := handler e in (r, t ++ t')
  end.

(** [console.error(label, error)] *)
Definition console_error (label : js_string) (error : exn) : M unit :=
  emit (ConsoleError label error).

(** The provider calls of a trace, the log lines left out. *)
Definition completion_calls (t : trace) : list (js_string * js_string) :=
  omap (fun e => match e with GenerateContent m p => Some (m, p) | _ => None end) t.

Definition mail_calls (t : trace) : list mail_options :=
  omap (fun e => match e with SendMail o => Some o | _ => None end) t.

(** What the server log of a trace holds. *)
Definition logged (t : trace) : list (js_string * exn) :=
  omap (fun e => match e with ConsoleError l x => Some (l, x) | _ => None end) t.

End Effects.
Export Effects.

(** ** The server: [server.js] *)

Module Server.

Record response := Response { status : N; body : js_value }.

(** [res.json(v)]: the status stays at Express's default, 200. *)
Definition res_json (v : js_value) : response := Response 200 v.

(** [res.status(code).json(v)] *)
Definition res_status_json (code : N) (v : js_value) : response := Response code v.

(** The object literal [{ error: msg }]. *)
Definition error_body (msg : js_string) : js_value := JObj [(str "error", JStr msg)].

(** The three variables of [process.env] the routes read; an unset
    variable is [undefined]. *)
Record process_env := ProcessEnv {
  GEMINI_API_KEY : option js_string;
  EMAIL_USER : option js_string;
  EMAIL_PASS : option js_string
}.

Definition env_value (v : option js_string) : js_value :=
  match v with
  | Some s => JStr s
  | None => JUndefined
  end.

(** The two external collaborators, each an oracle that resolves or
    rejects: [getGenerativeModel({ model }).generateContent(prompt)]
    followed by [response.text()], and [transporter.sendMail]. *)
Record providers := Providers {
  generateContent : js_string -> js_string -> result js_string;
  sendMail : mail_options -> result unit
}.

Definition call_generateContent (p : providers) (model prompt : js_string)
  : M js_string :=
  (generateContent p model prompt, [GenerateContent model prompt]).

Definition call_sendMail (p : providers) (o : mail_options) : M unit :=
  (sendMail p o, [SendMail o]).

(** *** Route 1: [POST /api/generate-summary] *)

Definition MSG_fields_required : js_string :=
  str "Transcript and instruction are required".
Definition MSG_key_not_configured : js_string :=
  str "Gemini API key not configured".
Definition MSG_generate_failed : js_string :=
  str "Failed to generate summary. Please try again.".

Definition model_name : js_string := str "gemini-1.5-flash".

(** The template literal of the prompt, both interpolations already
    converted to strings. *)
Definition prompt_text (transcript instruction : js_string) : js_string :=
  nl ++ str "Please analyze the following meeting transcript and provide a summary based on the given instruction."
     ++ nl ++ nl
     ++ str "TRANSCRIPT:" ++ nl
     ++ transcript ++ nl ++ nl
     ++ str "INSTRUCTION:" ++ nl
     ++ instruction ++ nl ++ nl
     ++ str "Please provide a clear, well-structured summary that follows the instruction above."
     ++ nl.

Definition build_prompt (transcript instruction : js_value) : result js_string :=
  match to_string transcript with
  | Throw e => Throw e
  | Ok t =>
      match to_string instruction with
      | Throw e => Throw e
      | Ok i => Ok (prompt_text t i)
      end
  end.

Definition generate_summary (env : process_env) (p : providers) (req_body : js_value)
  : M response :=
  try_catch
    (b ← lift (destructurable req_body);
     let transcript := get b (str "transcript") in
     let instruction := get b (str "instruction") in
     if negb (truthy transcript) || negb (truthy instruction) then
       mret (res_status_json 400 (error_body MSG_fields_required))
     else if negb (truthy (env_value (GEMINI_API_KEY env))) then
       mret (res_status_json 500 (error_body MSG_key_not_configured))
     else
       prompt ← lift (build_prompt transcript instruction);
       summary ← call_generateContent p model_name prompt;
       mret (res_json (JObj [(str "summary", JStr summary)])))
    (fun error =>
       console_error (str "Error generating summary:") error;;
       mret (res_status_json 500 (error_body MSG_generate_failed))).

(** *** Route 2: [POST /api/send-email] *)

Definition MSG_summary_recipients_required : js_string :=
  str "Summary and at least one recipient email are required".
Definition MSG_email_not_configured : js_string :=
  str "Email configuration not set up".
Definition MSG_send_failed : js_string :=
  str "Failed to send email. Please check your email configuration.".
Definition MSG_email_sent : js_string := str "Email sent successfully".

Definition mail_subject : js_string := str "Meeting Summary - MangoDesk".

Definition indent (n : nat) : js_string := replicate n 32.

(** [ style="css"] *)
Definition style_attr (css : string) : js_string :=
  str " style=" ++ dquote ++ str css ++ dquote.

(** The template literal of the message body, the summary already
    converted to a string and embedded as it is. *)
Definition html_text (summary : js_string) : js_string :=
  nl ++ indent 8 ++ str "<div"
     ++ style_attr "font-family: Arial, sans-serif; max-width: 600px; margin: 0 auto;"
     ++ str ">" ++ nl
     ++ indent 10 ++ str "<h2" ++ style_attr "color: #333;"
     ++ str ">Meeting Summary</h2>" ++ nl
     ++ indent 10 ++ str "<div"
     ++ style_attr "background-color: #f9f9f9; padding: 20px; border-radius: 5px; margin: 20px 0;"
     ++ str ">" ++ nl
     ++ indent 12 ++ str "<pre"
     ++ style_attr "white-space: pre-wrap; font-family: inherit; margin: 0;"
     ++ str ">" ++ summary ++ str "</pre>" ++ nl
     ++ indent 10 ++ str "</div>" ++ nl
     ++ indent 10 ++ str "<p" ++ style_attr "color: #666; font-size: 14px;"
     ++ str ">" ++ nl
     ++ indent 12
     ++ str "This summary was generated using MangoDesk AI Meeting Summarizer."
     ++ nl
     ++ indent 10 ++ str "</p>" ++ nl
     ++ indent 8 ++ str "</div>" ++ nl
     ++ indent 6.

(** [recipients.join(', ')]; the guard before it has made sure that
    [recipients] is an array. *)
Definition join_recipients (recipients : js_value) : result js_string :=
  match recipients with
  | JArr elems => join elems (str ", ")
  | _ => Throw (TypeError (str "recipients.join is not a function"))
  end.

(** The object literal [mailOptions], its properties evaluated in
    source order. *)
Definition build_mailOptions (env : process_env) (summary recipients : js_value)
  : result mail_options :=
  match join_recipients recipients with
  | Throw e => Throw e
  | Ok to_field =>
      match to_string summary with
      | Throw e => Throw e
      | Ok s =>
          Ok {| from := env_value (EMAIL_USER env);
                to := to_field;
                subject := mail_subject;
                html := html_text s |}
      end
  end.

(** [recipients.length === 0], read only once [recipients] is known
    to be an array. *)
Definition length_is_zero (v : js_value) : bool :=
  match v with
  | JArr [] => true
  | _ => false
  end.

Definition send_email (env : process_env) (p : providers) (req_body : js_value)
  : M response :=
  try_catch
    (b ← lift (destructurable req_body);
     let summary := get b (str "summary") in
     let recipients := get b (str "recipients") in
     if negb (truthy summary) || negb (truthy recipients)
        || negb (isArray recipients) || length_is_zero recipients then
       mret (res_status_json 400 (error_body MSG_summary_recipients_required))
     else if negb (truthy (env_value (EMAIL_USER env)))
             || negb (truthy (env_value (EMAIL_PASS env))) then
       mret (res_status_json 500 (error_body MSG_email_not_configured))
     else
       mailOptions ← lift (build_mailOptions env summary recipients);
       call_sendMail p mailOptions;;
       mret (res_json (JObj [(str "success", JBool true);
                             (str "message", JStr MSG_email_sent)])))
    (fun error =>
       console_error (str "Error sending email:") error;;
       mret (res_status_json 500 (error_body MSG_send_failed))).

(** *** Route 3: [POST /api/upload-transcript] *)

(** A file part of a multipart request, as multer hands it on: the
    form field it came in, the file name and the content type as the
    multipart parser reports them, and (memory storage) its bytes. *)
Record file_part := FilePart {
  fieldname : js_string;
  originalname : js_string;
  mimetype : js_string;
  buffer : list Byte.byte
}.

Definition MSG_only_txt : js_string := str "Only .txt files are allowed".
Definition MSG_no_file : js_string := str "No file uploaded".
Definition MSG_process_failed : js_string := str "Failed to process file".
Definition MSG_internal : js_string := str "Internal server error".

(** [limits.fileSize] *)
Definition fileSize : N := 5 * 1024 * 1024.

(** The size test is the multipart parser's, and the source does not
    say which parser its multer runs on.  Every one lets a file under
    [limits.fileSize] pass and stops a file over it; on a file of
    exactly [limits.fileSize] bytes they differ: the parser of multer
    1.4.5-lts.1 and later reports the limit as reached, the one before
    it does not.  [refuses_at_limit] says which of the two is
    installed. *)
Definition limit_reached (refuses_at_limit : bool) (size : N) : bool :=
  if refuses_at_limit then fileSize <=? size else fileSize <? size.

(** [fileFilter]: [cb(null, true)] is [Ok true], [cb(err, false)] is
    [Throw err]. *)
Definition fileFilter (file : file_part) : result bool :=
  if strict_eq (mimetype file) (str "text/plain")
     || strict_eq (mimetype file) (str "application/octet-stream")
  then Ok true
  else Throw (Error MSG_only_txt).

(** Whether the filter lets the file through. *)
Definition fileFilter_accepts (file : file_part) : bool :=
  match fileFilter file with
  | Ok b => b
  | Throw _ => false
  end.

(** [upload.single(field)] on a request that carries at most one file
    part.  This is multer's part of the route: a part with no file name
    is skipped, a part in another field and a file that reaches
    [limits.fileSize] are errors, a file the filter refuses with an
    error is that error, and every error goes to [next(err)] instead of
    the route's handler.  No part at all leaves [req.file] undefined.
    [mimetype] is the type as the parser reports it, which is what the
    filter reads. *)
Definition upload_single (refuses_at_limit : bool) (field : js_string)
    (part : option file_part) : result (option file_part) :=
  match part with
  | None => Ok None
  | Some file =>
      if negb (truthy (JStr (originalname file))) then Ok None
      else if negb (strict_eq (fieldname file) field) then
        Throw (Error (str "Unexpected field"))
      else
        match fileFilter file with
        | Throw e => Throw e
        | Ok false => Ok None
        | Ok true =>
            if limit_reached refuses_at_limit (N.of_nat (length (buffer file))) then
              Throw (Error (str "File too large"))
            else Ok (Some file)
        end
  end.

Section Upload.

(** The installed parser's answer at exactly [limits.fileSize]. *)
Variable refuses_at_limit : bool.

(** [buffer.toString('utf-8')], Node's decoder. *)
Variable utf8_decode : list Byte.byte -> js_string.

Definition upload_transcript_handler (req_file : option file_part) : M response :=
  try_catch
    (match req_file with
     | None => mret (res_status_json 400 (error_body MSG_no_file))
     | Some file =>
         let transcript := utf8_decode (buffer file) in
         mret (res_json (JObj [(str "transcript", JStr transcript)]))
     end)
    (fun error =>
       console_error (str "Error processing file:") error;;
       mret (res_status_json 500 (error_body MSG_process_failed))).

(** The error handling middleware, last in the chain. *)
Definition error_middleware (error : exn) : M response :=
  console_error (str "Unhandled error:") error;;
  mret (res_status_json 500 (error_body MSG_internal)).

(** The route as Express runs it: multer first, then the handler,
    or the error middleware when multer called [next(err)]. *)
Definition upload_transcript (part : option file_part) : M response :=
  match upload_single refuses_at_limit (str "transcript") part with
  | Throw e => error_middleware e
  | Ok req_file => upload_transcript_handler req_file
  end.

End Upload.

(** Runs the monadic plumbing of a handler, leaving the strings and
    the provider oracles alone. *)
Ltac run_handler :=
  cbn [destructurable lift mbind M_bind mret M_ret try_catch
       console_error emit call_generateContent call_sendMail
       res_json res_status_json app].

End Server.

(** ** The client: [App.tsx] *)

Module Client.

(** The two properties of a browser [File] that [handleFileUpload]
    reads. *)
Record file := File { type : js_string; name : js_string }.

(** What [handleFileUpload] does with the file input's selection: it
    returns at once when nothing is selected, shows an error without
    contacting the server when the check fails, and otherwise posts the
    file to [/api/upload-transcript]. *)
Inductive upload_action :=
| NoAction
| ShowError (message : js_string)
| PostFile (f : file).

Definition handleFileUpload (selected : option file) : upload_action :=
  match selected with
  | None => NoAction
  | Some f =>
      if negb (strict_eq (type f) (str "text/plain"))
         && negb (endsWith (name f) (str ".txt"))
      then ShowError (str "Please upload a .txt file")
      else PostFile f
  end.

(** The client's check lets the file through to the server. *)
Definition precheck_accepts (f : file) : bool :=
  match handleFileUpload (Some f) with
  | PostFile _ => true
  | _ => false
  end.

(** The part of the component's state that the recipient actions read
    and write. *)
Record ui_state := UiState {
  recipients : list js_string;
  recipientInput : js_string
}.

Definition addRecipient (st : ui_state) : ui_state :=
  let email := trim (recipientInput st) in
  if truthy (JStr email) && negb (includes (recipients st) email) then
    {| recipients := recipients st ++ [email]; recipientInput := [] |}
  else st.

Definition removeRecipient (email : js_string) (st : ui_state) : ui_state :=
  {| recipients := filter (fun r => r ≠ email) (recipients st);
     recipientInput := recipientInput st |}.

(** Typing into the recipient field: [setRecipientInput(e.target.value)]. *)
Definition typeRecipient (text : js_string) (st : ui_state) : ui_state :=
  {| recipients := recipients st; recipientInput := text |}.

Definition initial : ui_state := {| recipients := []; recipientInput := [] |}.

End Client.

(** ** Shapes of a request body *)

Module Requests.

(** The body is an object that lacks [key], or holds a falsy value
    under it. *)
Definition absent_or_falsy (fields : list (js_string * js_value)) (key : js_string)
  : bool :=
  match own_property fields key with
  | None => true
  | Some v => negb (truthy v)
  end.

(** The body holds under [key] something that is not an array. *)
Definition not_an_array (fields : list (js_string * js_value)) (key : js_string)
  : bool :=
  match own_property fields key with
  | None => false
  | Some v => negb (isArray v)
  end.

(** [s] occurs in [t]. *)
Definition occurs_in (s t : js_string) : Prop :=
  ∃ before after, t = before ++ s ++ after.

End Requests.

(** ** Requests of the test suite *)

Module Fixtures.
Import Server.

(** The environment and the mocked providers of [server.test.js]. *)
Definition test_env : process_env :=
  {| GEMINI_API_KEY := Some (str "test-api-key");
     EMAIL_USER := Some (str "test@example.com");
     EMAIL_PASS := Some (str "test-password") |}.

Definition mock_providers : providers :=
  {| generateContent := fun _ _ => Ok (str "Mocked AI summary response");
     sendMail := fun _ => Ok tt |}.

(** Providers that reject, each with a detail of its own. *)
Definition failing_providers : providers :=
  {| generateContent := fun _ _ =>
       Throw (ProviderError (JObj [(str "status", JNum (Num false (str "429")));
                                   (str "message", JStr (str "quota exceeded"))]));
     sendMail := fun _ =>
       Throw (ProviderError (JObj [(str "code", JStr (str "EAUTH"));
                                   (str "response", JStr (str "535 bad credentials"))])) |}.

Definition summary_request : js_value :=
  JObj [(str "transcript", JStr (str "This is a test meeting transcript."));
        (str "instruction", JStr (str "Summarize in bullet points"))].

Definition summary_request_without_transcript : js_value :=
  JObj [(str "instruction", JStr (str "Summarize in bullet points"))].

(** The send of the end-to-end scenario: two recipients. *)
Definition email_request : js_value :=
  JObj [(str "summary", JStr (str "- Q3 roadmap reviewed"));
        (str "recipients", JArr [JStr (str "a@x.com"); JStr (str "b@x.com")])].

Definition email_request_recipients_not_array : js_value :=
  JObj [(str "summary", JStr (str "This is a test summary."));
        (str "recipients", JStr (str "test@example.com"))].

Definition email_request_empty_summary : js_value :=
  JObj [(str "summary", JStr []);
        (str "recipients", JArr [JStr (str "test@example.com")])].

(** Recipients that no address check would pass: the empty string
    alone, and an empty string, a number and [null] together. *)
Definition email_request_only_empty_recipient : js_value :=
  JObj [(str "summary", JStr (str "This is a test summary."));
        (str "recipients", JArr [JStr []])].

Definition email_request_odd_recipients : js_value :=
  JObj [(str "summary", JStr (str "This is a test summary."));
        (str "recipients", JArr [JStr []; JNum (Num false (str "42")); JNull])].

Definition pdf_part : file_part :=
  {| fieldname := str "transcript";
     originalname := str "test.pdf";
     mimetype := str "application/pdf";
     buffer := list_byte_of_string "test content" |}.

End Fixtures.

(** ** Strings with no white space at an end *)

Module Trimmed.

(** A string that does not start with white space. *)
Definition clean_start (s : js_string) : Prop :=
  match s with
  | [] => True
  | c :: _ => is_white_space c = false
  end.

(** A string that neither starts nor ends with white space. *)
Definition trimmed (s : js_string) : Prop :=
  clean_start s ∧ clean_start (rev s).

End Trimmed.

(** ** The component: state, handlers and what the page enables *)

Module App.
Import Client.

(** [Status]: the [type] of the banner and its message.  The message
    is whatever the handler stored, a server's [error] value included. *)
Inductive status_type := StatusSuccess | StatusError | StatusLoading.

Record Status := MkStatus { kind : option status_type; message : js_value }.

(** The six [useState] cells; [recipients] and [recipientInput] are the
    [ui_state] of the recipient actions.  [transcript] and [summary] can
    also be set from a response, so they hold a value. *)
Record app_state := AppState {
  transcript : js_value;
  instruction : js_string;
  summary : js_value;
  book : ui_state;
  status : Status
}.

Definition initial : app_state :=
  {| transcript := JStr [];
     instruction := [];
     summary := JStr [];
     book := Client.initial;
     status := MkStatus None (JStr []) |}.

Definition setTranscript (v : js_value) (st : app_state) : app_state :=
  {| transcript := v; instruction := instruction st; summary := summary st;
     book := book st; status := status st |}.

Definition setInstruction (s : js_string) (st : app_state) : app_state :=
  {| transcript := transcript st; instruction := s; summary := summary st;
     book := book st; status := status st |}.

Definition setSummary (v : js_value) (st : app_state) : app_state :=
  {| transcript := transcript st; instruction := instruction st; summary := v;
     book := book st; status := status st |}.

Definition setBook (b : ui_state) (st : app_state) : app_state :=
  {| transcript := transcript st; instruction := instruction st;
     summary := summary st; book := b; status := status st |}.

Definition setStatus (s : Status) (st : app_state) : app_state :=
  {| transcript := transcript st; instruction := instruction st;
     summary := summary st; book := book st; status := s |}.

Definition status_error (msg : string) : Status :=
  MkStatus (Some StatusError) (JStr (str msg)).
Definition status_loading (msg : string) : Status :=
  MkStatus (Some StatusLoading) (JStr (str msg)).
Definition status_success (msg : string) : Status :=
  MkStatus (Some StatusSuccess) (JStr (str msg)).

(** [v.trim()] on a value that is no string: there is no such method. *)
Definition no_trim : exn := TypeError (str "trim is not a function").

(** [data.key] on the parsed response: reading a property of
    [undefined] or [null] throws. *)
Definition read (data : js_value) (key : js_string) : result js_value :=
  match destructurable data with
  | Throw e => Throw e
  | Ok d => Ok (get d key)
  end.

(** [v || fallback] *)
Definition or_else (v : js_value) (fallback : string) : js_value :=
  if truthy v then v else JStr (str fallback).

(** A file of the file input: what [handleFileUpload] reads of it, and
    its content. *)
Record selected_file := SelectedFile { info : file; content : list Byte.byte }.

(** The three requests the page sends, each with what its body
    carries; by the time one is sent the guards have made sure that the
    fields are strings. *)
Inductive request :=
| PostGenerateSummary (transcript instruction : js_string)
| PostSendEmail (summary : js_string) (recipients : list js_string)
| PostUploadTranscript (f : selected_file).

Definition url_of (q : request) : js_string :=
  match q with
  | PostGenerateSummary _ _ => str "/api/generate-summary"
  | PostSendEmail _ _ => str "/api/send-email"
  | PostUploadTranscript _ => str "/api/upload-transcript"
  end.

(** What [await fetch(...)] and [await response.json()] give: a
    rejected fetch, or a response with its [ok] flag and its parsed
    body ([None] when the body is no JSON). *)
Inductive fetch_result :=
| FetchFailed
| Responded (ok : bool) (json : option js_value).

(** *** [generateSummary] *)

(** Up to the [await]: the guard, the loading banner, the request. *)
Definition generateSummary_start (st : app_state)
  : result (app_state * option request) :=
  match transcript st with
  | JStr t =>
      if negb (truthy (JStr (trim t)))
         || negb (truthy (JStr (trim (instruction st)))) then
        Ok (setStatus (status_error "Please provide both transcript and instruction") st,
            None)
      else
        Ok (setStatus (status_loading "Generating summary...") st,
            Some (PostGenerateSummary t (instruction st)))
  | _ => Throw no_trim
  end.

(** After the [await]s, the [catch] included. *)
Definition generateSummary_finish (r : fetch_result) (st : app_state) : app_state :=
  let caught := setStatus (status_error "Failed to generate summary") st in
  match r with
  | Responded true (Some data) =>
      match read data (str "summary") with
      | Ok v => setStatus (status_success "Summary generated successfully!")
                  (setSummary v st)
      | Throw _ => caught
      end
  | Responded false (Some data) =>
      match read data (str "error") with
      | Ok v => setStatus (MkStatus (Some StatusError)
                             (or_else v "Failed to generate summary")) st
      | Throw _ => caught
      end
  | _ => caught
  end.

(** *** [sendEmail] *)

Definition sendEmail_start (st : app_state) : result (app_state * option request) :=
  match summary st with
  | JStr s =>
      if negb (truthy (JStr (trim s))) then
        Ok (setStatus (status_error "Please generate a summary first") st, None)
      else if bool_decide (recipients (book st) = []) then
        Ok (setStatus (status_error "Please add at least one recipient") st, None)
      else
        Ok (setStatus (status_loading "Sending email...") st,
            Some (PostSendEmail s (recipients (book st))))
  | _ => Throw no_trim
  end.

Definition sendEmail_finish (r : fetch_result) (st : app_state) : app_state :=
  let caught := setStatus (status_error "Failed to send email") st in
  match r with
  | Responded true (Some _) =>
      setBook {| recipients := []; recipientInput := [] |}
        (setStatus (status_success "Email sent successfully!") st)
  | Responded false (Some data) =>
      match read data (str "error") with
      | Ok v => setStatus (MkStatus (Some StatusError)
                             (or_else v "Failed to send email")) st
      | Throw _ => caught
      end
  | _ => caught
  end.

(** *** [handleFileUpload], with the state it touches *)

Definition handleFileUpload_start (selection : option selected_file) (st : app_state)
  : app_state * option request :=
  match selection with
  | None => (st, None)
  | Some f =>
      match Client.handleFileUpload (Some (info f)) with
      | NoAction => (st, None)
      | ShowError msg => (setStatus (MkStatus (Some StatusError) (JStr msg)) st, None)
      | PostFile _ =>
          (setStatus (status_loading "Uploading file...") st,
           Some (PostUploadTranscript f))
      end
  end.

Definition handleFileUpload_finish (r : fetch_result) (st : app_state) : app_state :=
  let caught := setStatus (status_error "Failed to upload file") st in
  match r with
  | Responded true (Some data) =>
      match read data (str "transcript") with
      | Ok v => setStatus (status_success "File uploaded successfully!")
                  (setTranscript v st)
      | Throw _ => caught
      end
  | Responded false (Some data) =>
      match read data (str "error") with
      | Ok v => setStatus (MkStatus (Some StatusError)
                             (or_else v "Failed to upload file")) st
      | Throw _ => caught
      end
  | _ => caught
  end.

(** *** [handleRecipientKeyPress]: the flag is [preventDefault]. *)
Definition handleRecipientKeyPress (key : js_string) (st : app_state)
  : bool * app_state :=
  if strict_eq key (str "Enter") || strict_eq key (str ",") then
    (true, setBook (addRecipient (book st)) st)
  else (false, st).

(** *** What the page enables *)

(** [disabled] of the Generate Summary button. *)
Definition generate_disabled (st : app_state) : result bool :=
  match transcript st with
  | JStr t => Ok (negb (truthy (JStr (trim t)))
                  || negb (truthy (JStr (trim (instruction st)))))
  | _ => Throw no_trim
  end.

(** [{summary && (...)}]: the summary and email sections are rendered. *)
Definition email_section_shown (st : app_state) : bool := truthy (summary st).

(** [disabled] of the Add Recipient button. *)
Definition add_disabled (st : app_state) : bool :=
  negb (truthy (JStr (trim (recipientInput (book st))))).

(** [disabled] of the Send Email button. *)
Definition send_disabled (st : app_state) : bool :=
  bool_decide (recipients (book st) = []).

(** What the recipient list should always be: no address twice, none
    empty, none with white space at an end. *)
Definition well_kept (b : ui_state) : Prop :=
  NoDup (recipients b)
  ∧ ∀ e, e ∈ recipients b → e ≠ [] ∧ Trimmed.trimmed e.

(** *** The page as a machine *)

Section Machine.

(** The network and the server behind it. *)
Variable fetch : request -> fetch_result.

(** A handler run to its end: the state it leaves and the requests it
    sent.  A throw before the first [set] leaves the state as it was. *)
Definition generateSummary (st : app_state) : app_state * list request :=
  match generateSummary_start st with
  | Throw _ => (st, [])
  | Ok (st1, None) => (st1, [])
  | Ok (st1, Some q) => (generateSummary_finish (fetch q) st1, [q])
  end.

Definition sendEmail (st : app_state) : app_state * list request :=
  match sendEmail_start st with
  | Throw _ => (st, [])
  | Ok (st1, None) => (st1, [])
  | Ok (st1, Some q) => (sendEmail_finish (fetch q) st1, [q])
  end.

Definition uploadFile (selection : option selected_file) (st : app_state)
  : app_state * list request :=
  match handleFileUpload_start selection st with
  | (st1, None) => (st1, [])
  | (st1, Some q) => (handleFileUpload_finish (fetch q) st1, [q])
  end.

(** What a user can do to the page. *)
Inductive action :=
| ChangeTranscript (text : js_string)
| ChangeInstruction (text : js_string)
| ChangeSummary (text : js_string)
| ChangeRecipientInput (text : js_string)
| ChooseFile (selection : option selected_file)
| ClickGenerate
| ClickAddRecipient
| PressKey (key : js_string)
| ClickRemove (email : js_string)
| ClickSend.

Definition step (st : app_state) (a : action) : app_state :=
  match a with
  | ChangeTranscript text => setTranscript (JStr text) st
  | ChangeInstruction text => setInstruction text st
  | ChangeSummary text => setSummary (JStr text) st
  | ChangeRecipientInput text => setBook (typeRecipient text (book st)) st
  | ChooseFile selection => fst (uploadFile selection st)
  | ClickGenerate => fst (generateSummary st)
  | ClickAddRecipient => setBook (addRecipient (book st)) st
  | PressKey key => snd (handleRecipientKeyPress key st)
  | ClickRemove email => setBook (removeRecipient email (book st)) st
  | ClickSend => fst (sendEmail st)
  end.

Definition run (actions : list action) (st : app_state) : app_state :=
  foldl step st actions.

End Machine.

End App.

(** ** A tactic for the routes *)

Module RouteTactics.
Import Server.

(** Closes a leaf of a route's case analysis: the handler has run to a
    response, and what is asked of it can be read off. *)
Ltac answered :=
  eexists _, _; split; [reflexivity|]; cbn [status body];
  repeat match goal with |- _ ∧ _ => split end;
  first [ done
        | cbn; lia
        | intros [? | ?]; discriminate
        | intros [? | ?]; by split
        | by left
        | by right; left
        | by right; right
        | intros _; eexists _, _; by eauto ].

End RouteTactics.

(** ** The page against the server *)

Module Wire.
Import Server.

(** The bodies of the two JSON requests as the server's parser hands
    them on: the object literals the page serialised, their fields all
    strings. *)
Definition generate_body (transcript instruction : js_string) : js_value :=
  JObj [(str "transcript", JStr transcript);
        (str "instruction", JStr instruction)].

Definition email_body (summary : js_string) (recipients : list js_string)
  : js_value :=
  JObj [(str "summary", JStr summary);
        (str "recipients", JArr (JStr <$> recipients))].

(** What lies between the page and the handlers and is not in the
    source: how the browser writes a request and what the installed
    parsers make of it. *)
Record transport := Transport {
  (** The length in bytes of the JSON text the page sends for a body,
      which is what [express.json] holds against its limit. *)
  json_bytes : js_value -> N;
  (** The [mimetype] multer reports for a file whose [File.type] is the
      argument.  The browser writes the type in the part's header,
      [application/octet-stream] when the type is empty; the parser
      reads it back in lower case and without its parameters. *)
  reported_type : js_string -> js_string;
  (** The [originalname] multer reports for a file whose [File.name] is
      the argument: the browser escapes the name, the parser decodes it
      and drops a leading path. *)
  reported_name : js_string -> js_string;
  (** Whether the parser stops a file of exactly [limits.fileSize]
      bytes. *)
  refuses_at_limit : bool
}.

(** [express.json({ limit: '10mb' })] *)
Definition json_limit : N := 10 * 1024 * 1024.

(** What the body parser throws at a longer body. *)
Definition entity_too_large : exn := Error (str "request entity too large").

(** The part that [formData.append('transcript', file)] becomes on the
    server. *)
Definition part_of (tr : transport) (f : App.selected_file) : file_part :=
  {| fieldname := str "transcript";
     originalname := reported_name tr (Client.name (App.info f));
     mimetype := reported_type tr (Client.type (App.info f));
     buffer := App.content f |}.

Section Served.

Variable tr : transport.
Variables (env : process_env) (p : providers).
Variable utf8_decode : list Byte.byte -> js_string.

(** [app.use(express.json({ limit: '10mb' }))] before a route: a body
    over the limit is an error of the parser, which goes to the error
    handling middleware and never reaches the route. *)
Definition express_json (body : js_value) (route : js_value -> M response)
  : M response :=
  if json_limit <? json_bytes tr body then error_middleware entity_too_large
  else route body.

(** The route each request reaches. *)
Definition serve (q : App.request) : M response :=
  match q with
  | App.PostGenerateSummary transcript instruction =>
      express_json (generate_body transcript instruction) (generate_summary env p)
  | App.PostSendEmail summary recipients =>
      express_json (email_body summary recipients) (send_email env p)
  | App.PostUploadTranscript f =>
      upload_transcript (refuses_at_limit tr) utf8_decode (Some (part_of tr f))
  end.

(** The message the send-email route builds from a request of the
    page. *)
Definition message_of (summary : js_string) (recipients : list js_string)
  : mail_options :=
  {| from := env_value (EMAIL_USER env);
     to := join_with (str ", ") recipients;
     subject := mail_subject;
     html := html_text summary |}.

(** [response.ok] is a status from 200 to 299; the handlers answer with
    [res.json], so the body parses back to the value they sent. *)
Definition respond (r : M response) : App.fetch_result :=
  match fst r with
  | Ok resp =>
      App.Responded ((200 <=? status resp) && (status resp <=? 299))
        (Some (body resp))
  | Throw _ => App.Responded false None
  end.

Definition fetch (q : App.request) : App.fetch_result := respond (serve q).

(** What the requests of a handler did on the server. *)
Definition server_trace (qs : list App.request) : trace :=
  concat (map (fun q => snd (serve q)) qs).

End Served.

(** *** A transport to run the page on

    The browser and the parsers on requests of the plain kind: types in
    well-formed [type/subtype] form, file names of ASCII letters, digits
    and dots. *)

Definition is_high_surrogate (c : code_unit) : bool := (55296 <=? c) && (c <=? 56319).
Definition is_low_surrogate (c : code_unit) : bool := (56320 <=? c) && (c <=? 57343).

(** The bytes one code unit takes in JSON text sent as UTF-8: two for a
    quote, a backslash and the five short escapes, six for another
    control character or a surrogate on its own, else the UTF-8 length
    of the character. *)
Definition code_unit_bytes (c : code_unit) : N :=
  if (c =? 34) || (c =? 92) || (c =? 8) || (c =? 9) || (c =? 10)
     || (c =? 12) || (c =? 13) then 2
  else if c <? 32 then 6
  else if c <? 128 then 1
  else if c <? 2048 then 2
  else if is_high_surrogate c || is_low_surrogate c then 6
  else 3.

(** The characters of a string between its quotes; a surrogate pair is
    one character of four bytes. *)
Fixpoint string_payload_bytes (s : js_string) : N :=
  match s with
  | [] => 0
  | c :: rest =>
      match rest with
      | d :: rest' =>
          if is_high_surrogate c && is_low_surrogate d
          then 4 + string_payload_bytes rest'
          else code_unit_bytes c + string_payload_bytes rest
      | [] => code_unit_bytes c
      end
  end.

Definition string_bytes (s : js_string) : N := 2 + string_payload_bytes s.

(** Items between brackets, a comma between two of them. *)
Definition bracketed (items : list N) : N :=
  2 + foldr N.add 0 items + N.pred (N.of_nat (length items)).

Section Sizes.

Variable value_bytes : js_value -> N.

(** An [undefined] element of an array is written [null]. *)
Fixpoint element_bytes (elems : list js_value) : list N :=
  match elems with
  | [] => []
  | x :: rest =>
      match x with
      | JUndefined => 4
      | _ => value_bytes x
      end :: element_bytes rest
  end.

(** An [undefined] property of an object is left out. *)
Fixpoint property_bytes (fields : list (js_string * js_value)) : list N :=
  match fields with
  | [] => []
  | (k, v) :: rest =>
      match v with
      | JUndefined => property_bytes rest
      | _ => (string_bytes k + 1 + value_bytes v) :: property_bytes rest
      end
  end.

End Sizes.

(** [JSON.stringify(v)] in bytes, for a value with finite numbers. *)
Fixpoint stringify_bytes (v : js_value) : N :=
  match v with
  | JUndefined => 0
  | JNull => 4
  | JBool true => 4
  | JBool false => 5
  | JNum n => N.of_nat (length (number_text n))
  | JStr s => string_bytes s
  | JArr elems => bracketed (element_bytes stringify_bytes elems)
  | JObj fields => bracketed (property_bytes stringify_bytes fields)
  end.

Definition lower_case (c : code_unit) : code_unit :=
  if (65 <=? c) && (c <=? 90) then c + 32 else c.

(** The type of a well-formed header value: what stands before the
    first semicolon, in lower case. *)
Fixpoint essence (header : js_string) : js_string :=
  match header with
  | [] => []
  | c :: rest => if c =? 59 then [] else lower_case c :: essence rest
  end.

(** The examples run on this transport; the statements hold of any. *)
Definition plain_transport : transport :=
  {| json_bytes := stringify_bytes;
     reported_type := fun type =>
       essence (if strict_eq type [] then str "application/octet-stream" else type);
     reported_name := fun name => name;
     refuses_at_limit := true |}.

End Wire.

(** * Properties *)

(** ** The value model *)

Module ModelFacts.

Lemma own_property_absent fields key :
  own_property fields key = None → get (JObj fields) key = JUndefined.
Proof. intros H. cbn. by rewrite H. Qed.

Lemma own_property_present fields key v :
  own_property fields key = Some v → get (JObj fields) key = v.
Proof. intros H. cbn. by rewrite H. Qed.

Lemma truthy_string s : truthy (JStr s) = true ↔ s ≠ [].
Proof. cbn. by rewrite negb_true_iff, bool_decide_eq_false. Qed.

Lemma truthy_isArray v : isArray v = true → truthy v = true.
Proof. by destruct v. Qed.

Lemma absent_or_falsy_get fields key :
  Requests.absent_or_falsy fields key = true →
  truthy (get (JObj fields) key) = false.
Proof.
  unfold Requests.absent_or_falsy. cbn [get].
  destruct (own_property fields key) as [v|]; [|done].
  cbn. by intros ?%negb_true_iff.
Qed.

Lemma not_an_array_get fields key :
  Requests.not_an_array fields key = true →
  isArray (get (JObj fields) key) = false.
Proof.
  unfold Requests.not_an_array. cbn [get].
  destruct (own_property fields key) as [v|]; [|done].
  cbn. by intros ?%negb_true_iff.
Qed.

Lemma to_string_string s : to_string (JStr s) = Ok s.
Proof. reflexivity. Qed.

(** The printing of an array is its join on a comma. *)
Lemma to_string_array elems : to_string (JArr elems) = join elems (str ",").
Proof. reflexivity. Qed.

(** An array of strings joins to the strings joined. *)
Lemma element_strings_of_strings (ss : list js_string) :
  element_strings (JStr <$> ss) = Ok ss.
Proof.
  induction ss as [|s ss IH]; [done|].
  unfold element_strings in *. rewrite fmap_cons. cbn. by rewrite IH.
Qed.

Lemma join_of_strings (ss : list js_string) sep :
  join (JStr <$> ss) sep = Ok (join_with sep ss).
Proof.
  unfold join, join_by. fold element_strings.
  by rewrite element_strings_of_strings.
Qed.

(** [join] puts every element into the result: each joined string
    occurs in it, between a prefix and a suffix. *)
Lemma join_with_contains sep (ss : list js_string) s :
  s ∈ ss → Requests.occurs_in s (join_with sep ss).
Proof.
  unfold Requests.occurs_in.
  induction ss as [|x ss IH]; intros Hin; [by apply elem_of_nil in Hin|].
  apply elem_of_cons in Hin as [-> | Hin].
  - destruct ss as [|y ss].
    + exists [], []. cbn. by rewrite app_nil_r.
    + by exists [], (sep ++ join_with sep (y :: ss)).
  - destruct (IH Hin) as (b & a & Heq).
    destruct ss as [|y ss]; [by apply elem_of_nil in Hin|].
    exists (x ++ sep ++ b), a.
    change (join_with sep (x :: y :: ss)) with (x ++ sep ++ join_with sep (y :: ss)).
    rewrite Heq. by rewrite <- !app_assoc.
Qed.

(** An object with an own [toString] has no string conversion. *)
Lemma to_string_own_toString fields v :
  own_property fields (str "toString") = Some v →
  to_string (JObj fields) = Throw cannot_convert.
Proof. intros H. cbn [to_string]. by rewrite H. Qed.

End ModelFacts.

(** ** The three routes, case by case *)

Module ServerFacts.
Import Server ModelFacts.

Section GenerateSummary.

Variables (env : process_env) (p : providers).
Variable fields : list (js_string * js_value).

Local Abbreviation transcript := (get (JObj fields) (str "transcript")).
Local Abbreviation instruction := (get (JObj fields) (str "instruction")).

(** The first guard: a falsy field answers 400 and nothing else
    happens. *)
Lemma generate_summary_rejects :
  truthy transcript = false ∨ truthy instruction = false →
  generate_summary env p (JObj fields)
  = (Ok (Response 400 (error_body MSG_fields_required)), []).
Proof.
  intros H. unfold generate_summary. run_handler.
  assert (negb (truthy transcript) || negb (truthy instruction) = true) as ->;
    [|done].
  destruct H as [-> | ->]; [done | apply orb_true_r].
Qed.

(** The second guard: no credential answers 500 and nothing else
    happens. *)
Lemma generate_summary_unconfigured :
  truthy transcript = true → truthy instruction = true →
  truthy (env_value (GEMINI_API_KEY env)) = false →
  generate_summary env p (JObj fields)
  = (Ok (Response 500 (error_body MSG_key_not_configured)), []).
Proof.
  intros Ht Hi Hk. unfold generate_summary. run_handler.
  by rewrite Ht, Hi, Hk.
Qed.

(** Past both guards with a prompt built: one provider call, and
    its outcome decides the response. *)
Lemma generate_summary_calls prompt :
  truthy transcript = true → truthy instruction = true →
  truthy (env_value (GEMINI_API_KEY env)) = true →
  build_prompt transcript instruction = Ok prompt →
  generate_summary env p (JObj fields)
  = match generateContent p model_name prompt with
    | Ok text =>
        (Ok (Response 200 (JObj [(str "summary", JStr text)])),
         [GenerateContent model_name prompt])
    | Throw e =>
        (Ok (Response 500 (error_body MSG_generate_failed)),
         [GenerateContent model_name prompt;
          ConsoleError (str "Error generating summary:") e])
    end.
Proof.
  intros Ht Hi Hk Hp. unfold generate_summary. run_handler.
  rewrite Ht, Hi, Hk, Hp. run_handler.
  by destruct (generateContent p model_name prompt).
Qed.

(** Past both guards with a field that has no string conversion:
    the throw is caught before any provider call. *)
Lemma generate_summary_conversion_throws e :
  truthy transcript = true → truthy instruction = true →
  truthy (env_value (GEMINI_API_KEY env)) = true →
  build_prompt transcript instruction = Throw e →
  generate_summary env p (JObj fields)
  = (Ok (Response 500 (error_body MSG_generate_failed)),
     [ConsoleError (str "Error generating summary:") e]).
Proof.
  intros Ht Hi Hk Hp. unfold generate_summary. run_handler.
  by rewrite Ht, Hi, Hk, Hp.
Qed.

End GenerateSummary.

Section SendEmail.

Variables (env : process_env) (p : providers).
Variable fields : list (js_string * js_value).

Local Abbreviation summary := (get (JObj fields) (str "summary")).
Local Abbreviation recipients := (get (JObj fields) (str "recipients")).

(** The first guard: a falsy summary, or recipients that are not a
    non-empty array, answer 400 and nothing else happens. *)
Lemma send_email_rejects :
  truthy summary = false ∨ isArray recipients = false ∨ recipients = JArr [] →
  send_email env p (JObj fields)
  = (Ok (Response 400 (error_body MSG_summary_recipients_required)), []).
Proof.
  intros H. unfold send_email. run_handler.
  assert (negb (truthy summary) || negb (truthy recipients)
          || negb (isArray recipients) || length_is_zero recipients = true) as ->;
    [|done].
  destruct H as [-> | [-> | ->]];
    cbn [negb length_is_zero]; by rewrite ?orb_true_r.
Qed.

(** A truthy summary and a non-empty array pass the first guard,
    whatever the array holds. *)
Lemma send_email_guard_passes x elems :
  truthy summary = true → recipients = JArr (x :: elems) →
  negb (truthy summary) || negb (truthy recipients)
  || negb (isArray recipients) || length_is_zero recipients = false.
Proof. intros -> ->. done. Qed.

Lemma send_email_unconfigured x elems :
  truthy summary = true → recipients = JArr (x :: elems) →
  truthy (env_value (EMAIL_USER env)) = false
  ∨ truthy (env_value (EMAIL_PASS env)) = false →
  send_email env p (JObj fields)
  = (Ok (Response 500 (error_body MSG_email_not_configured)), []).
Proof.
  intros Hs Hr He. unfold send_email. run_handler.
  rewrite (send_email_guard_passes x elems Hs Hr).
  assert (negb (truthy (env_value (EMAIL_USER env)))
          || negb (truthy (env_value (EMAIL_PASS env))) = true) as ->; [|done].
  destruct He as [-> | ->]; [done | apply orb_true_r].
Qed.

(** Past both guards with the message built: one provider call, and
    its outcome decides the response. *)
Lemma send_email_calls x elems mailOptions :
  truthy summary = true → recipients = JArr (x :: elems) →
  truthy (env_value (EMAIL_USER env)) = true →
  truthy (env_value (EMAIL_PASS env)) = true →
  build_mailOptions env summary recipients = Ok mailOptions →
  send_email env p (JObj fields)
  = match sendMail p mailOptions with
    | Ok _ =>
        (Ok (Response 200 (JObj [(str "success", JBool true);
                                 (str "message", JStr MSG_email_sent)])),
         [SendMail mailOptions])
    | Throw e =>
        (Ok (Response 500 (error_body MSG_send_failed)),
         [SendMail mailOptions; ConsoleError (str "Error sending email:") e])
    end.
Proof.
  intros Hs Hr Hu Hp Hm. unfold send_email. run_handler.
  rewrite (send_email_guard_passes x elems Hs Hr), Hu, Hp, Hm. run_handler.
  by destruct (sendMail p mailOptions).
Qed.

(** Past both guards with a value that has no string conversion:
    the throw is caught before any provider call. *)
Lemma send_email_conversion_throws x elems e :
  truthy summary = true → recipients = JArr (x :: elems) →
  truthy (env_value (EMAIL_USER env)) = true →
  truthy (env_value (EMAIL_PASS env)) = true →
  build_mailOptions env summary recipients = Throw e →
  send_email env p (JObj fields)
  = (Ok (Response 500 (error_body MSG_send_failed)),
     [ConsoleError (str "Error sending email:") e]).
Proof.
  intros Hs Hr Hu Hp Hm. unfold send_email. run_handler.
  by rewrite (send_email_guard_passes x elems Hs Hr), Hu, Hp, Hm.
Qed.

(** The message that goes out, when every value converts. *)
Lemma build_mailOptions_ok elems ss s :
  element_strings elems = Ok ss → to_string summary = Ok s →
  build_mailOptions env summary (JArr elems)
  = Ok {| from := env_value (EMAIL_USER env);
          to := join_with (str ", ") ss;
          subject := mail_subject;
          html := html_text s |}.
Proof.
  intros He Hs. unfold build_mailOptions, join_recipients, join, join_by.
  fold element_strings. by rewrite He, Hs.
Qed.

End SendEmail.

Section UploadTranscript.

Variable refuses_at_limit : bool.
Variable utf8_decode : list Byte.byte → js_string.

(** Under the ceiling no parser reports the limit, over it every one
    does. *)
Lemma limit_reached_under size :
  (size < fileSize)%N → limit_reached refuses_at_limit size = false.
Proof.
  intros H. unfold limit_reached.
  destruct refuses_at_limit; [by apply N.leb_gt | apply N.ltb_ge; lia].
Qed.

Lemma limit_reached_over size :
  (fileSize < size)%N → limit_reached refuses_at_limit size = true.
Proof.
  intros H. unfold limit_reached.
  destruct refuses_at_limit; [apply N.leb_le; lia | by apply N.ltb_lt].
Qed.

Lemma limit_reached_at : limit_reached refuses_at_limit fileSize = refuses_at_limit.
Proof. unfold limit_reached. by destruct refuses_at_limit. Qed.


(** A file the filter refuses never reaches the route's handler:
    multer hands the filter's error to the error middleware. *)
Lemma upload_refused_by_filter file e :
  originalname file ≠ [] →
  fieldname file = str "transcript" → fileFilter file = Throw e →
  upload_transcript refuses_at_limit utf8_decode (Some file)
  = (Ok (Response 500 (error_body MSG_internal)),
     [ConsoleError (str "Unhandled error:") e]).
Proof.
  intros Hn%truthy_string Hf He. unfold upload_transcript, upload_single.
  by rewrite Hn, Hf, He.
Qed.

(** A file of an accepted type that does not reach the size ceiling
    comes back decoded, as it is. *)
Lemma upload_accepted file :
  originalname file ≠ [] →
  fieldname file = str "transcript" →
  mimetype file = str "text/plain"
  ∨ mimetype file = str "application/octet-stream" →
  limit_reached refuses_at_limit (N.of_nat (length (buffer file))) = false →
  upload_transcript refuses_at_limit utf8_decode (Some file)
  = (Ok (Response 200 (JObj [(str "transcript",
                              JStr (utf8_decode (buffer file)))])), []).
Proof.
  intros Hn%truthy_string Hf Hm Hsize.
  unfold upload_transcript, upload_single, fileFilter.
  rewrite Hn, Hf.
  assert (strict_eq (mimetype file) (str "text/plain")
          || strict_eq (mimetype file) (str "application/octet-stream") = true) as ->.
  { destruct Hm as [-> | ->]; done. }
  by rewrite Hsize.
Qed.

(** A file of an accepted type that reaches the ceiling is an error of
    multer's, and the error middleware answers. *)
Lemma upload_too_large file :
  originalname file ≠ [] →
  fieldname file = str "transcript" →
  mimetype file = str "text/plain"
  ∨ mimetype file = str "application/octet-stream" →
  limit_reached refuses_at_limit (N.of_nat (length (buffer file))) = true →
  upload_transcript refuses_at_limit utf8_decode (Some file)
  = (Ok (Response 500 (error_body MSG_internal)),
     [ConsoleError (str "Unhandled error:") (Error (str "File too large"))]).
Proof.
  intros Hn%truthy_string Hf Hm Hsize.
  unfold upload_transcript, upload_single, fileFilter.
  rewrite Hn, Hf.
  assert (strict_eq (mimetype file) (str "text/plain")
          || strict_eq (mimetype file) (str "application/octet-stream") = true) as ->.
  { destruct Hm as [-> | ->]; done. }
  by rewrite Hsize.
Qed.

Lemma upload_no_file :
  upload_transcript refuses_at_limit utf8_decode None
  = (Ok (Response 400 (error_body MSG_no_file)), []).
Proof. reflexivity. Qed.

End UploadTranscript.

Section Always.
Variables (env : process_env) (p : providers) (req_body : js_value).

(** Whatever the body, the handler answers, and it has called the
    provider at most once. *)
Lemma generate_summary_responds :
  ∃ r t, generate_summary env p req_body = (Ok r, t)
         ∧ (length (completion_calls t) ≤ 1)%nat.
Proof.
  unfold generate_summary.
  destruct (destructurable req_body) as [b|e]; run_handler;
    [|eexists _, _; split; [reflexivity | cbn; lia]].
  destruct (negb (truthy (get b (str "transcript")))
            || negb (truthy (get b (str "instruction"))));
    [eexists _, _; split; [reflexivity | cbn; lia]|].
  destruct (negb (truthy (env_value (GEMINI_API_KEY env))));
    [eexists _, _; split; [reflexivity | cbn; lia]|].
  destruct (build_prompt _ _) as [prompt|e]; run_handler;
    [|eexists _, _; split; [reflexivity | cbn; lia]].
  destruct (generateContent p model_name prompt); run_handler;
    eexists _, _; (split; [reflexivity | cbn; lia]).
Qed.

Lemma send_email_responds :
  ∃ r t, send_email env p req_body = (Ok r, t)
         ∧ (length (mail_calls t) ≤ 1)%nat.
Proof.
  unfold send_email.
  destruct (destructurable req_body) as [b|e]; run_handler;
    [|eexists _, _; split; [reflexivity | cbn; lia]].
  destruct (negb (truthy (get b (str "summary")))
            || negb (truthy (get b (str "recipients")))
            || negb (isArray (get b (str "recipients")))
            || length_is_zero (get b (str "recipients")));
    [eexists _, _; split; [reflexivity | cbn; lia]|].
  destruct (negb (truthy (env_value (EMAIL_USER env)))
            || negb (truthy (env_value (EMAIL_PASS env))));
    [eexists _, _; split; [reflexivity | cbn; lia]|].
  destruct (build_mailOptions _ _ _) as [o|e]; run_handler;
    [|eexists _, _; split; [reflexivity | cbn; lia]].
  destruct (sendMail p o); run_handler;
    eexists _, _; (split; [reflexivity | cbn; lia]).
Qed.

End Always.

Section Logging.
Variables (env : process_env) (p : providers).
Variable fields : list (js_string * js_value).

(** What the provider rejected with is written to the server log. *)
Lemma generate_summary_logs_rejection prompt e :
  truthy (get (JObj fields) (str "transcript")) = true →
  truthy (get (JObj fields) (str "instruction")) = true →
  truthy (env_value (GEMINI_API_KEY env)) = true →
  build_prompt (get (JObj fields) (str "transcript"))
    (get (JObj fields) (str "instruction")) = Ok prompt →
  generateContent p model_name prompt = Throw e →
  logged (snd (generate_summary env p (JObj fields)))
  = [(str "Error generating summary:", e)].
Proof.
  intros Ht Hi Hk Hp He.
  by rewrite (generate_summary_calls env p fields prompt Ht Hi Hk Hp), He.
Qed.

Lemma send_email_logs_rejection x elems mailOptions e :
  truthy (get (JObj fields) (str "summary")) = true →
  get (JObj fields) (str "recipients") = JArr (x :: elems) →
  truthy (env_value (EMAIL_USER env)) = true →
  truthy (env_value (EMAIL_PASS env)) = true →
  build_mailOptions env (get (JObj fields) (str "summary"))
    (get (JObj fields) (str "recipients")) = Ok mailOptions →
  sendMail p mailOptions = Throw e →
  logged (snd (send_email env p (JObj fields)))
  = [(str "Error sending email:", e)].
Proof.
  intros Hs Hr Hu Hp Hm He.
  by rewrite (send_email_calls env p fields x elems mailOptions Hs Hr Hu Hp Hm), He.
Qed.

End Logging.

End ServerFacts.

(** ** The contract of the generate-summary route *)

Module GenerateSummarySpec.
Import Server Requests Fixtures ModelFacts ServerFacts.

(** C3. A generate-summary request whose body lacks [transcript] or
    [instruction], or holds a falsy value under either, is answered 400
    with the error message "Transcript and instruction are required",
    and the handler leaves an empty trace: the check comes before any
    call to the completion provider. *)
Theorem generate_summary_missing_field env p fields :
  absent_or_falsy fields (str "transcript") = true
  ∨ absent_or_falsy fields (str "instruction") = true →
  generate_summary env p (JObj fields)
  = (Ok (Response 400
           (JObj [(str "error",
                   JStr (str "Transcript and instruction are required"))])),
     []).
Proof.
  intros H. apply generate_summary_rejects.
  destruct H as [H | H]; [left | right]; by apply absent_or_falsy_get.
Qed.

Lemma generate_summary_missing_field_witness :
  generate_summary test_env mock_providers summary_request_without_transcript
  = (Ok (Response 400
           (JObj [(str "error",
                   JStr (str "Transcript and instruction are required"))])),
     []).
Proof.
  apply generate_summary_missing_field. left. reflexivity.
Defined.

(** C2. A generate-summary request with a non-empty transcript string
    and a non-empty instruction string, under a configured credential,
    makes the handler build one prompt (a fixed opening, the transcript
    under the label TRANSCRIPT, the instruction under the label
    INSTRUCTION, a fixed closing directive) and issue exactly one call
    to the completion provider with it; when the provider returns a
    text, the response is 200 with [summary] equal to that text, as it
    is. *)
Theorem generate_summary_verbatim env p fields transcript instruction :
  get (JObj fields) (str "transcript") = JStr transcript →
  truthy (JStr transcript) = true →
  get (JObj fields) (str "instruction") = JStr instruction →
  truthy (JStr instruction) = true →
  truthy (env_value (GEMINI_API_KEY env)) = true →
  let prompt :=
    (nl ++ str "Please analyze the following meeting transcript and provide a summary based on the given instruction."
        ++ nl ++ nl ++ str "TRANSCRIPT:" ++ nl)
    ++ transcript
    ++ (nl ++ nl ++ str "INSTRUCTION:" ++ nl)
    ++ instruction
    ++ (nl ++ nl
        ++ str "Please provide a clear, well-structured summary that follows the instruction above."
        ++ nl) in
  completion_calls (snd (generate_summary env p (JObj fields)))
  = [(str "gemini-1.5-flash", prompt)]
  ∧ ∀ text,
      generateContent p (str "gemini-1.5-flash") prompt = Ok text →
      generate_summary env p (JObj fields)
      = (Ok (Response 200 (JObj [(str "summary", JStr text)])),
         [GenerateContent (str "gemini-1.5-flash") prompt]).
Proof.
  intros Ht Htt Hi Hit Hk prompt.
  assert (build_prompt (get (JObj fields) (str "transcript"))
            (get (JObj fields) (str "instruction")) = Ok prompt) as Hp.
  { rewrite Ht, Hi. unfold build_prompt, prompt_text, prompt. cbn [to_string].
    by rewrite <- !app_assoc. }
  rewrite <- Ht in Htt. rewrite <- Hi in Hit.
  rewrite (generate_summary_calls env p fields prompt Htt Hit Hk Hp).
  change model_name with (str "gemini-1.5-flash").
  split.
  - by destruct (generateContent p (str "gemini-1.5-flash") prompt).
  - by intros text ->.
Qed.

Lemma generate_summary_verbatim_witness :
  generate_summary test_env mock_providers summary_request
  = (Ok (Response 200 (JObj [(str "summary", JStr (str "Mocked AI summary response"))])),
     [GenerateContent (str "gemini-1.5-flash")
        (prompt_text (str "This is a test meeting transcript.")
           (str "Summarize in bullet points"))]).
Proof.
  refine (proj2 (generate_summary_verbatim test_env mock_providers _
                   (str "This is a test meeting transcript.")
                   (str "Summarize in bullet points") _ _ _ _ _) _ _);
    reflexivity.
Defined.

End GenerateSummarySpec.

(** ** The contract of the send-email route *)

Module SendEmailSpec.
Import Server Requests Fixtures ModelFacts ServerFacts.

(** C4. A send-email request whose [recipients] is absent, is not an
    array, or is the empty array, or whose [summary] is absent, is
    answered 400 with the error message "Summary and at least one
    recipient email are required", and the handler leaves an empty
    trace: no call to the mail provider. *)
Theorem send_email_missing_field env p fields :
  own_property fields (str "recipients") = None
  ∨ not_an_array fields (str "recipients") = true
  ∨ own_property fields (str "recipients") = Some (JArr [])
  ∨ own_property fields (str "summary") = None →
  send_email env p (JObj fields)
  = (Ok (Response 400
           (JObj [(str "error",
                   JStr (str "Summary and at least one recipient email are required"))])),
     []).
Proof.
  intros H. apply send_email_rejects.
  destruct H as [H | [H | [H | H]]].
  - right; left. by rewrite (own_property_absent _ _ H).
  - right; left. by apply not_an_array_get.
  - right; right. by apply own_property_present.
  - left. by rewrite (own_property_absent _ _ H).
Qed.

Lemma send_email_missing_field_witness :
  send_email test_env mock_providers email_request_recipients_not_array
  = (Ok (Response 400
           (JObj [(str "error",
                   JStr (str "Summary and at least one recipient email are required"))])),
     []).
Proof.
  apply send_email_missing_field. right; left. reflexivity.
Defined.

(** C9. A send-email request whose [summary] is present but falsy (the
    empty string, [null], [false], [0]) is answered with the same 400
    response as a request that has no [summary] at all, and the handler
    leaves an empty trace: no call to the mail provider. *)
Theorem send_email_falsy_summary env p fields v :
  own_property fields (str "summary") = Some v → truthy v = false →
  send_email env p (JObj fields)
  = (Ok (Response 400
           (JObj [(str "error",
                   JStr (str "Summary and at least one recipient email are required"))])),
     [])
  ∧ ∀ fields', own_property fields' (str "summary") = None →
      send_email env p (JObj fields) = send_email env p (JObj fields').
Proof.
  intros Hv Hf.
  assert (send_email env p (JObj fields)
          = (Ok (Response 400 (error_body MSG_summary_recipients_required)), [])) as Heq.
  { apply send_email_rejects. left. by rewrite (own_property_present _ _ _ Hv). }
  split; [exact Heq|].
  intros fields' Habs. rewrite Heq. symmetry.
  apply send_email_rejects. left. by rewrite (own_property_absent _ _ Habs).
Qed.

Lemma send_email_falsy_summary_witness :
  send_email test_env mock_providers email_request_empty_summary
  = (Ok (Response 400
           (JObj [(str "error",
                   JStr (str "Summary and at least one recipient email are required"))])),
     [])
  ∧ send_email test_env mock_providers email_request_empty_summary
    = send_email test_env mock_providers
        (JObj [(str "recipients", JArr [JStr (str "test@example.com")])]).
Proof.
  destruct (send_email_falsy_summary test_env mock_providers
              [(str "summary", JStr []);
               (str "recipients", JArr [JStr (str "test@example.com")])]
              (JStr []) eq_refl eq_refl) as [H1 H2].
  split; [exact H1 | apply H2; reflexivity].
Defined.

(** C1. A send-email request with a non-empty summary string and a
    non-empty array of address strings, under configured mail
    credentials, makes the handler issue exactly one call to the mail
    provider; the [to] field of that one message is all the addresses
    joined by a comma and a space, so every address occurs in it; and
    when the provider accepts the message the response is 200 with
    [{success: true, message: "Email sent successfully"}]. *)
Theorem send_email_one_message env p fields summary addrs :
  get (JObj fields) (str "summary") = JStr summary →
  truthy (JStr summary) = true →
  get (JObj fields) (str "recipients") = JArr (JStr <$> addrs) →
  addrs ≠ [] →
  truthy (env_value (EMAIL_USER env)) = true →
  truthy (env_value (EMAIL_PASS env)) = true →
  ∃ mailOptions,
    mail_calls (snd (send_email env p (JObj fields))) = [mailOptions]
    ∧ to mailOptions = join_with (str ", ") addrs
    ∧ (∀ a, a ∈ addrs → occurs_in a (to mailOptions))
    ∧ (sendMail p mailOptions = Ok tt →
       send_email env p (JObj fields)
       = (Ok (Response 200
                (JObj [(str "success", JBool true);
                       (str "message", JStr (str "Email sent successfully"))])),
          [SendMail mailOptions])).
Proof.
  intros Hs Hst Hr Hne Hu Hp.
  destruct addrs as [|a addrs]; [done|]. rewrite fmap_cons in Hr.
  pose proof (build_mailOptions_ok env fields (JStr <$> (a :: addrs)) (a :: addrs)
                summary (element_strings_of_strings _)) as Hm.
  rewrite Hs in Hm. specialize (Hm eq_refl). rewrite fmap_cons, <- Hs, <- Hr in Hm.
  rewrite <- Hs in Hst.
  eexists. rewrite (send_email_calls env p fields _ _ _ Hst Hr Hu Hp Hm).
  split; [|split; [|split]].
  - by destruct (sendMail p _).
  - reflexivity.
  - intros b Hb. by apply join_with_contains.
  - by intros ->.
Qed.

Lemma send_email_one_message_witness :
  send_email test_env mock_providers email_request
  = (Ok (Response 200
           (JObj [(str "success", JBool true);
                  (str "message", JStr (str "Email sent successfully"))])),
     [SendMail {| from := JStr (str "test@example.com");
                  to := str "a@x.com, b@x.com";
                  subject := str "Meeting Summary - MangoDesk";
                  html := html_text (str "- Q3 roadmap reviewed") |}]).
Proof.
  destruct (send_email_one_message test_env mock_providers
              [(str "summary", JStr (str "- Q3 roadmap reviewed"));
               (str "recipients", JArr [JStr (str "a@x.com"); JStr (str "b@x.com")])]
              (str "- Q3 roadmap reviewed") [str "a@x.com"; str "b@x.com"]
              eq_refl eq_refl eq_refl ltac:(discriminate) eq_refl eq_refl)
    as (o & Hcalls & Hto & _ & Hok).
  injection Hcalls as <-. apply Hok. reflexivity.
Defined.

(** C10. The send-email route checks no entry of [recipients]: with a
    truthy summary, every non-empty array passes the validation
    whatever it holds (the answer is never the 400), and, under
    configured credentials, the entries are converted to strings and
    joined by a comma and a space into the [to] field of the one message
    handed to the mail provider.  An array holding only the empty
    string gives an empty [to]; a number prints in decimal, [null] as
    nothing. *)
Theorem send_email_recipients_unchecked env p fields x elems :
  truthy (get (JObj fields) (str "summary")) = true →
  get (JObj fields) (str "recipients") = JArr (x :: elems) →
  (∃ r, fst (send_email env p (JObj fields)) = Ok r ∧ status r ≠ 400)
  ∧ ∀ s ss,
      truthy (env_value (EMAIL_USER env)) = true →
      truthy (env_value (EMAIL_PASS env)) = true →
      to_string (get (JObj fields) (str "summary")) = Ok s →
      element_strings (x :: elems) = Ok ss →
      ∃ mailOptions,
        mail_calls (snd (send_email env p (JObj fields))) = [mailOptions]
        ∧ to mailOptions = join_with (str ", ") ss.
Proof.
  intros Hs Hr. split.
  - destruct (truthy (env_value (EMAIL_USER env))) eqn:Hu;
      [destruct (truthy (env_value (EMAIL_PASS env))) eqn:Hp|].
    + destruct (build_mailOptions env (get (JObj fields) (str "summary"))
                  (get (JObj fields) (str "recipients"))) as [o|e] eqn:Hm.
      * rewrite (send_email_calls env p fields x elems o Hs Hr Hu Hp Hm).
        destruct (sendMail p o); eexists; (split; [reflexivity | done]).
      * rewrite (send_email_conversion_throws env p fields x elems e Hs Hr Hu Hp Hm).
        eexists; (split; [reflexivity | done]).
    + rewrite (send_email_unconfigured env p fields x elems Hs Hr (or_intror Hp)).
      eexists; (split; [reflexivity | done]).
    + rewrite (send_email_unconfigured env p fields x elems Hs Hr (or_introl Hu)).
      eexists; (split; [reflexivity | done]).
  - intros s ss Hu Hp Hsum Hel.
    pose proof (build_mailOptions_ok env fields (x :: elems) ss s Hel Hsum) as Hm.
    rewrite <- Hr in Hm.
    eexists. rewrite (send_email_calls env p fields x elems _ Hs Hr Hu Hp Hm).
    split; [by destruct (sendMail p _) | reflexivity].
Qed.

Lemma send_email_recipients_unchecked_witness :
  (∃ mailOptions,
     mail_calls (snd (send_email test_env mock_providers email_request_only_empty_recipient))
     = [mailOptions]
     ∧ to mailOptions = [])
  ∧ (∃ mailOptions,
       mail_calls (snd (send_email test_env mock_providers email_request_odd_recipients))
       = [mailOptions]
       ∧ to mailOptions = str ", 42, ").
Proof.
  split.
  - exact (proj2 (send_email_recipients_unchecked test_env mock_providers
                    [(str "summary", JStr (str "This is a test summary."));
                     (str "recipients", JArr [JStr []])]
                    (JStr []) [] eq_refl eq_refl)
             (str "This is a test summary.") [[]] eq_refl eq_refl eq_refl eq_refl).
  - exact (proj2 (send_email_recipients_unchecked test_env mock_providers
                    [(str "summary", JStr (str "This is a test summary."));
                     (str "recipients", JArr [JStr []; JNum (Num false (str "42")); JNull])]
                    (JStr []) [JNum (Num false (str "42")); JNull] eq_refl eq_refl)
             (str "This is a test summary.") [[]; str "42"; []]
             eq_refl eq_refl eq_refl eq_refl).
Defined.

End SendEmailSpec.

(** ** Provider failures *)

Module UpstreamSpec.
Import Server Requests Fixtures ModelFacts ServerFacts.

(** C7. When the call a handler issues to its provider fails, whatever
    it fails with, the handler answers with a fixed message and makes no
    second call.  A generate-summary request that passed the guards, for
    which the completion call on its prompt is rejected with [e], is
    answered 500 with "Failed to generate summary. Please try again.";
    a send-email request that passed the guards, for which the send of
    its message is rejected with [e], is answered 500 with "Failed to
    send email. Please check your email configuration.".  In both the
    handler has made that one call and written [e] to the server log,
    and nothing of [e] is in the response. *)
Theorem provider_failure_is_generic env p fields :
  (∀ t i e,
     truthy (get (JObj fields) (str "transcript")) = true →
     truthy (get (JObj fields) (str "instruction")) = true →
     truthy (env_value (GEMINI_API_KEY env)) = true →
     to_string (get (JObj fields) (str "transcript")) = Ok t →
     to_string (get (JObj fields) (str "instruction")) = Ok i →
     generateContent p model_name (prompt_text t i) = Throw e →
     generate_summary env p (JObj fields)
     = (Ok (Response 500
              (JObj [(str "error",
                      JStr (str "Failed to generate summary. Please try again."))])),
        [GenerateContent model_name (prompt_text t i);
         ConsoleError (str "Error generating summary:") e]))
  ∧ (∀ x elems s ss e,
       truthy (get (JObj fields) (str "summary")) = true →
       get (JObj fields) (str "recipients") = JArr (x :: elems) →
       truthy (env_value (EMAIL_USER env)) = true →
       truthy (env_value (EMAIL_PASS env)) = true →
       to_string (get (JObj fields) (str "summary")) = Ok s →
       element_strings (x :: elems) = Ok ss →
       let mailOptions := {| from := env_value (EMAIL_USER env);
                             to := join_with (str ", ") ss;
                             subject := mail_subject;
                             html := html_text s |} in
       sendMail p mailOptions = Throw e →
       send_email env p (JObj fields)
       = (Ok (Response 500
                (JObj [(str "error",
                        JStr (str "Failed to send email. Please check your email configuration."))])),
          [SendMail mailOptions; ConsoleError (str "Error sending email:") e])).
Proof.
  split.
  - intros t i e Ht Hi Hk Hts His Hfail.
    assert (build_prompt (get (JObj fields) (str "transcript"))
              (get (JObj fields) (str "instruction")) = Ok (prompt_text t i)) as Hp.
    { unfold build_prompt. by rewrite Hts, His. }
    rewrite (generate_summary_calls env p fields _ Ht Hi Hk Hp).
    by rewrite Hfail.
  - intros x elems s ss e Hs Hr Hu Hp Hsum Hel mailOptions Hfail.
    pose proof (build_mailOptions_ok env fields (x :: elems) ss s Hel Hsum) as Hm.
    rewrite <- Hr in Hm.
    rewrite (send_email_calls env p fields x elems _ Hs Hr Hu Hp Hm).
    fold mailOptions. by rewrite Hfail.
Qed.

Lemma provider_failure_is_generic_witness :
  generate_summary test_env failing_providers summary_request
  = (Ok (Response 500
           (JObj [(str "error",
                   JStr (str "Failed to generate summary. Please try again."))])),
     [GenerateContent model_name
        (prompt_text (str "This is a test meeting transcript.")
           (str "Summarize in bullet points"));
      ConsoleError (str "Error generating summary:")
        (ProviderError (JObj [(str "status", JNum (Num false (str "429")));
                              (str "message", JStr (str "quota exceeded"))]))])
  ∧ fst (send_email test_env failing_providers email_request)
    = Ok (Response 500
            (JObj [(str "error",
                    JStr (str "Failed to send email. Please check your email configuration."))])).
Proof.
  split.
  - exact (proj1 (provider_failure_is_generic test_env failing_providers
                    [(str "transcript", JStr (str "This is a test meeting transcript."));
                     (str "instruction", JStr (str "Summarize in bullet points"))])
             (str "This is a test meeting transcript.")
             (str "Summarize in bullet points") _
             eq_refl eq_refl eq_refl eq_refl eq_refl eq_refl).
  - exact (f_equal fst
             (proj2 (provider_failure_is_generic test_env failing_providers
                       [(str "summary", JStr (str "- Q3 roadmap reviewed"));
                        (str "recipients",
                         JArr [JStr (str "a@x.com"); JStr (str "b@x.com")])])
                (JStr (str "a@x.com")) [JStr (str "b@x.com")]
                (str "- Q3 roadmap reviewed") [str "a@x.com"; str "b@x.com"] _
                eq_refl eq_refl eq_refl eq_refl eq_refl eq_refl eq_refl)).
Defined.

End UpstreamSpec.

(** ** The upload route *)

Module UploadSpec.
Import Server Requests Fixtures ModelFacts ServerFacts.

(** C5, on the code: a file part declared [application/pdf] is refused
    by the filter with the error "Only .txt files are allowed", multer
    passes that error on, and the only handler of errors in the
    application answers it 500 with "Internal server error".  The
    filter's message reaches the server log, not the client, and the
    answer is not the 400 that the claim and the test suite expect. *)
Theorem upload_pdf_is_internal_error refuses_at_limit utf8_decode originalname buffer :
  originalname ≠ [] →
  let part := {| fieldname := str "transcript";
                 originalname := originalname;
                 mimetype := str "application/pdf";
                 buffer := buffer |} in
  upload_transcript refuses_at_limit utf8_decode (Some part)
  = (Ok (Response 500 (JObj [(str "error", JStr (str "Internal server error"))])),
     [ConsoleError (str "Unhandled error:")
        (Error (str "Only .txt files are allowed"))])
  ∧ fst (upload_transcript refuses_at_limit utf8_decode (Some part))
    ≠ Ok (Response 400 (JObj [(str "error", JStr (str "Only .txt files are allowed"))])).
Proof.
  intros Hname part.
  assert (upload_transcript refuses_at_limit utf8_decode (Some part)
          = (Ok (Response 500 (error_body MSG_internal)),
             [ConsoleError (str "Unhandled error:") (Error MSG_only_txt)])) as Heq.
  { by apply upload_refused_by_filter. }
  split; [exact Heq|]. rewrite Heq. cbn [fst]. intros [=].
Qed.

Lemma upload_pdf_is_internal_error_witness :
  upload_transcript true (fun _ => []) (Some pdf_part)
  = (Ok (Response 500 (JObj [(str "error", JStr (str "Internal server error"))])),
     [ConsoleError (str "Unhandled error:")
        (Error (str "Only .txt files are allowed"))]).
Proof.
  refine (proj1 (upload_pdf_is_internal_error true (fun _ => []) (str "test.pdf")
                   (list_byte_of_string "test content") _)).
  discriminate.
Defined.

End UploadSpec.

(** ** The client *)

Module ClientFacts.
Import Client.

Lemma includes_true_iff (xs : list js_string) s : includes xs s = true ↔ s ∈ xs.
Proof. unfold includes. apply bool_decide_eq_true. Qed.

Lemma includes_false_iff (xs : list js_string) s : includes xs s = false ↔ s ∉ xs.
Proof. unfold includes. apply bool_decide_eq_false. Qed.

(** Removing an address that is not there changes nothing. *)
Lemma filter_out_absent (xs : list js_string) e :
  e ∉ xs → filter (fun r => r ≠ e) xs = xs.
Proof.
  induction xs as [|x xs IH]; intros Hnot; [done|].
  apply not_elem_of_cons in Hnot as [Hne Hnot].
  rewrite filter_cons_True by done. by rewrite IH.
Qed.

(** [addRecipient] either appends the trimmed input or does nothing. *)
Lemma addRecipient_cases st :
  let email := trim (recipientInput st) in
  (email ≠ [] ∧ (email ∉ recipients st)
   ∧ addRecipient st = {| recipients := recipients st ++ [email]; recipientInput := [] |})
  ∨ ((email = [] ∨ email ∈ recipients st) ∧ addRecipient st = st).
Proof.
  intros email. unfold addRecipient. fold email. cbn [truthy].
  destruct (decide (email = [])) as [He | He].
  - right. split; [by left|]. by rewrite bool_decide_eq_true_2.
  - rewrite bool_decide_eq_false_2 by done. cbn [negb andb].
    destruct (includes (recipients st) email) eqn:Hin.
    + right. split; [right; by apply includes_true_iff | done].
    + left. split; [done|]. split; [by apply includes_false_iff | done].
Qed.

(** After [addRecipient] the trimmed input is in the list, unless it
    was empty. *)
Lemma addRecipient_present st :
  trim (recipientInput st) ≠ [] →
  trim (recipientInput st) ∈ recipients (addRecipient st).
Proof.
  intros Hne. destruct (addRecipient_cases st) as [(_ & _ & ->) | ([He | Hin] & ->)].
  - cbn. apply elem_of_app. right. apply list_elem_of_singleton. done.
  - done.
  - done.
Qed.

(** The list never holds an address twice, nor the empty string. *)
Lemma addRecipient_NoDup st :
  NoDup (recipients st) → NoDup (recipients (addRecipient st)).
Proof.
  intros Hnd. destruct (addRecipient_cases st) as [(_ & Hnot & ->) | (_ & ->)]; [|done].
  cbn. apply NoDup_app. split; [done|]. split; [|apply NoDup_singleton].
  intros x Hx ->%list_elem_of_singleton. done.
Qed.

Lemma addRecipient_nonempty st :
  [] ∉ recipients st → [] ∉ recipients (addRecipient st).
Proof.
  intros Hnot. destruct (addRecipient_cases st) as [(Hne & _ & ->) | (_ & ->)]; [|done].
  cbn. rewrite elem_of_app, list_elem_of_singleton. intros [? | ?]; done.
Qed.

Lemma removeRecipient_NoDup email st :
  NoDup (recipients st) → NoDup (recipients (removeRecipient email st)).
Proof. intros Hnd. cbn. by apply NoDup_filter. Qed.

Lemma removeRecipient_gone email st : email ∉ recipients (removeRecipient email st).
Proof. cbn. rewrite list_elem_of_filter. by intros [? _]. Qed.

End ClientFacts.

Module ClientSpec.
Import Server Client ClientFacts.

(** C8. Recipient accumulation.  Adding an address that, once trimmed,
    is already in the list leaves the list as it is, so adding the same
    text twice is adding it once and [a@x.com] added twice to the empty
    list gives a list of one entry.  Adding to the empty list and then
    removing the trimmed address gives the empty list (and, from any
    list that did not hold it, gives that list back).  A candidate that
    is empty once trimmed is never added. *)
Theorem recipient_accumulation :
  (∀ st, trim (recipientInput st) ∈ recipients st →
         recipients (addRecipient st) = recipients st)
  ∧ (∀ st text,
       recipients (addRecipient (typeRecipient text (addRecipient (typeRecipient text st))))
       = recipients (addRecipient (typeRecipient text st)))
  ∧ length (recipients
              (addRecipient (typeRecipient (str "a@x.com")
                 (addRecipient (typeRecipient (str "a@x.com") initial))))) = 1%nat
  ∧ (∀ text,
       length (recipients
                 (removeRecipient (trim text) (addRecipient (typeRecipient text initial))))
       = 0%nat)
  ∧ (∀ st text,
       trim text ∉ recipients st →
       recipients (removeRecipient (trim text) (addRecipient (typeRecipient text st)))
       = recipients st)
  ∧ (∀ st, trim (recipientInput st) = [] → addRecipient st = st).
Proof.
  assert (∀ st text,
       trim text ∉ recipients st →
       recipients (removeRecipient (trim text) (addRecipient (typeRecipient text st)))
       = recipients st) as Hremove.
  { intros st text Hnot.
    destruct (addRecipient_cases (typeRecipient text st))
      as [(_ & _ & ->) | (_ & ->)]; cbn.
    - rewrite filter_app, filter_out_absent by done.
      rewrite filter_cons_False by (intros H; by apply H).
      by rewrite filter_nil, app_nil_r.
    - by apply filter_out_absent. }
  split; [|split; [|split; [|split; [|split]]]].
  - intros st Hin.
    destruct (addRecipient_cases st) as [(_ & Hnot & _) | (_ & ->)]; done.
  - intros st text.
    set (st1 := addRecipient (typeRecipient text st)).
    destruct (addRecipient_cases (typeRecipient text st1))
      as [(Hne & Hnot & _) | (_ & ->)]; [|done].
    exfalso. apply Hnot. cbn. subst st1.
    by apply (addRecipient_present (typeRecipient text st)).
  - reflexivity.
  - intros text. rewrite Hremove; [done | apply not_elem_of_nil].
  - exact Hremove.
  - intros st He.
    destruct (addRecipient_cases st) as [(Hne & _ & _) | (_ & ->)]; done.
Qed.

Lemma recipient_accumulation_witness :
  recipients (addRecipient {| recipients := [str "a@x.com"];
                              recipientInput := str "  a@x.com " |})
  = [str "a@x.com"]
  ∧ addRecipient {| recipients := [str "a@x.com"]; recipientInput := str "   " |}
    = {| recipients := [str "a@x.com"]; recipientInput := str "   " |}.
Proof.
  destruct recipient_accumulation as (Hdup & _ & _ & _ & _ & Hempty).
  split.
  - apply (Hdup {| recipients := [str "a@x.com"]; recipientInput := str "  a@x.com " |}).
    apply list_elem_of_singleton. reflexivity.
  - apply Hempty. reflexivity.
Defined.

(** C6, the claim as it stands fails: a file named [notes.txt] of type
    [application/pdf] passes the client's check, and the part it
    becomes is refused by the server's filter; a file named [notes] of
    type [application/octet-stream] is stopped by the client although
    the server's filter takes the part it would become. *)
Lemma precheck_is_not_the_filter :
  (precheck_accepts (File (str "application/pdf") (str "notes.txt")) = true
   ∧ fileFilter_accepts
       (Wire.part_of Wire.plain_transport
          (App.SelectedFile (File (str "application/pdf") (str "notes.txt")) []))
     = false)
  ∧ (precheck_accepts (File (str "application/octet-stream") (str "notes")) = false
     ∧ fileFilter_accepts
         (Wire.part_of Wire.plain_transport
            (App.SelectedFile (File (str "application/octet-stream") (str "notes")) []))
       = true).
Proof. repeat split; reflexivity. Qed.

(** C6, amended.  The client's check accepts a file when its
    [File.type] is [text/plain] or its name ends in [.txt].  The
    server's filter reads the part the file becomes: it accepts when
    the type multer reports for it is [text/plain] or
    [application/octet-stream].  The two give the same verdict exactly
    on the files for which these two conditions are both true or both
    false.  So both accept a file whose type is, and is reported as,
    [text/plain]; a file of empty type, which the browser sends as
    [application/octet-stream], is accepted by the server whatever its
    name, and the verdicts agree on it exactly when the name ends in
    [.txt]; and on a file whose reported type is neither of the two the
    verdicts agree exactly when its type is not [text/plain] and its
    name does not end in [.txt]. *)
Theorem precheck_agrees_with_filter (tr : Wire.transport) (f : App.selected_file) :
  let file := App.info f in
  let reported := Wire.reported_type tr (Client.type file) in
  let same_verdict :=
    precheck_accepts file = fileFilter_accepts (Wire.part_of tr f) in
  (precheck_accepts file = true
   ↔ Client.type file = str "text/plain" ∨ str ".txt" `suffix_of` Client.name file)
  ∧ (fileFilter_accepts (Wire.part_of tr f) = true
     ↔ reported = str "text/plain" ∨ reported = str "application/octet-stream")
  ∧ (same_verdict
     ↔ (Client.type file = str "text/plain" ∨ str ".txt" `suffix_of` Client.name file
        ↔ reported = str "text/plain" ∨ reported = str "application/octet-stream"))
  ∧ (Client.type file = str "text/plain" → reported = str "text/plain" →
     precheck_accepts file = true ∧ fileFilter_accepts (Wire.part_of tr f) = true)
  ∧ (Client.type file = [] → reported = str "application/octet-stream" →
     fileFilter_accepts (Wire.part_of tr f) = true
     ∧ (same_verdict ↔ str ".txt" `suffix_of` Client.name file))
  ∧ (reported ≠ str "text/plain" → reported ≠ str "application/octet-stream" →
     fileFilter_accepts (Wire.part_of tr f) = false
     ∧ (same_verdict
        ↔ Client.type file ≠ str "text/plain"
          ∧ ¬ str ".txt" `suffix_of` Client.name file)).
Proof.
  intros file reported same_verdict.
  assert (precheck_accepts file = true
          ↔ Client.type file = str "text/plain"
            ∨ str ".txt" `suffix_of` Client.name file) as Hc.
  { unfold precheck_accepts, handleFileUpload, strict_eq, endsWith.
    destruct (decide (Client.type file = str "text/plain")) as [-> | Hne];
      [by split; [left|]|].
    rewrite (bool_decide_eq_false_2 _ Hne). cbn [negb andb].
    destruct (decide (str ".txt" `suffix_of` Client.name file)) as [Hsuf | Hsuf].
    - rewrite (bool_decide_eq_true_2 _ Hsuf). by split; [right|].
    - rewrite (bool_decide_eq_false_2 _ Hsuf). cbn. split; [done | by intros [? | ?]]. }
  assert (fileFilter_accepts (Wire.part_of tr f) = true
          ↔ reported = str "text/plain"
            ∨ reported = str "application/octet-stream") as Hs.
  { unfold fileFilter_accepts, fileFilter, strict_eq.
    cbn [mimetype Wire.part_of]. fold file. fold reported.
    destruct (decide (reported = str "text/plain")) as [-> | Hne1];
      [by split; [left|]|].
    destruct (decide (reported = str "application/octet-stream")) as [-> | Hne2];
      [by split; [right|]|].
    rewrite !bool_decide_eq_false_2 by done. cbn. split; [done | by intros [? | ?]]. }
  assert (same_verdict
          ↔ (precheck_accepts file = true
             ↔ fileFilter_accepts (Wire.part_of tr f) = true)) as Hsame.
  { unfold same_verdict.
    destruct (precheck_accepts file), (fileFilter_accepts (Wire.part_of tr f));
      split; try done; intros [H1 H2]; try (by symmetry; apply H1);
      by apply H2. }
  split; [exact Hc|]. split; [exact Hs|].
  split; [by rewrite Hsame, Hc, Hs|].
  split; [|split].
  - intros Ht Hr. split; [apply Hc | apply Hs]; by left.
  - intros Ht Hr.
    assert (fileFilter_accepts (Wire.part_of tr f) = true) as Hacc
      by (apply Hs; by right).
    split; [exact Hacc|]. rewrite Hsame, Hc, Hacc, Ht. split.
    + intros [_ H]. by destruct (H eq_refl).
    + intros Hsuf. split; [done | intros _; by right].
  - intros Hn1 Hn2.
    assert (fileFilter_accepts (Wire.part_of tr f) = false) as Hrej.
    { apply not_true_is_false. rewrite Hs. by intros [? | ?]. }
    split; [exact Hrej|]. rewrite Hsame, Hc, Hrej. split.
    + intros [H _].
      split; intros ?;
        [assert (false = true) by (apply H; by left)
        |assert (false = true) by (apply H; by right)]; done.
    + intros [H1 H2]. split; [intros [? | ?]; done | done].
Qed.

Lemma precheck_agrees_with_filter_witness :
  (precheck_accepts (File (str "text/plain") (str "test.txt")) = true
   ∧ fileFilter_accepts
       (Wire.part_of Wire.plain_transport
          (App.SelectedFile (File (str "text/plain") (str "test.txt")) []))
     = true)
  ∧ (precheck_accepts (File [] (str "notes.txt"))
     = fileFilter_accepts
         (Wire.part_of Wire.plain_transport
            (App.SelectedFile (File [] (str "notes.txt")) []))).
Proof.
  split.
  - exact (proj1 (proj2 (proj2 (proj2
             (precheck_agrees_with_filter Wire.plain_transport
                (App.SelectedFile (File (str "text/plain") (str "test.txt")) [])))))
             eq_refl eq_refl).
  - apply (proj2 (proj1 (proj2 (proj2 (proj2 (proj2
             (precheck_agrees_with_filter Wire.plain_transport
                (App.SelectedFile (File [] (str "notes.txt")) []))))))
             eq_refl eq_refl)).
    by exists (str "notes").
Defined.

End ClientSpec.

(** * Further properties *)

(** ** [String.prototype.trim] *)

Module TrimFacts.
Import Trimmed.

Lemma trimStart_suffix s : trimStart s `suffix_of` s.
Proof.
  induction s as [|c s IH]; [done|]. cbn.
  destruct (is_white_space c); [by apply suffix_cons_r | done].
Qed.

Lemma trimStart_clean s : clean_start (trimStart s).
Proof.
  induction s as [|c s IH]; [done|]. cbn.
  by destruct (is_white_space c) eqn:Hc.
Qed.

Lemma trimStart_id s : clean_start s → trimStart s = s.
Proof. destruct s as [|c s]; [done|]. cbn. by intros ->. Qed.

Lemma trimEnd_prefix s : trimEnd s `prefix_of` s.
Proof.
  unfold trimEnd. destruct (trimStart_suffix (rev s)) as [k Hk].
  exists (rev k). apply (f_equal (@rev _)) in Hk.
  rewrite rev_involutive, rev_app_distr in Hk. done.
Qed.

Lemma trimEnd_clean_start s : clean_start s → clean_start (trimEnd s).
Proof.
  intros Hs. destruct (trimEnd_prefix s) as [k Hk].
  destruct (trimEnd s) as [|c t]; [done|].
  rewrite Hk in Hs. exact Hs.
Qed.

(** The trimmed string starts and ends clean. *)
Lemma trim_clean s : clean_start (trim s) ∧ clean_start (rev (trim s)).
Proof.
  unfold trim. split.
  - apply trimEnd_clean_start, trimStart_clean.
  - unfold trimEnd. rewrite rev_involutive. apply trimStart_clean.
Qed.

(** Trimming twice is trimming once. *)
Lemma trim_idempotent s : trim (trim s) = trim s.
Proof.
  destruct (trim_clean s) as [Hstart Hend].
  unfold trim at 1. rewrite (trimStart_id _ Hstart).
  unfold trimEnd. rewrite (trimStart_id _ Hend). apply rev_involutive.
Qed.

(** A string with clean ends is its own trim. *)
Lemma trim_id s : clean_start s → clean_start (rev s) → trim s = s.
Proof.
  intros Hstart Hend. unfold trim, trimEnd.
  rewrite (trimStart_id _ Hstart), (trimStart_id _ Hend). apply rev_involutive.
Qed.

(** What trims to something was not empty. *)
Lemma trim_nonempty s : trim s ≠ [] → s ≠ [].
Proof. by intros H ->. Qed.

End TrimFacts.

(** ** The routes beyond their contract *)

Module ServerExtras.
Import Server Requests Fixtures ModelFacts ServerFacts RouteTactics.

(** X1. A generate-summary request that passes the field check while
    [GEMINI_API_KEY] is unset, or set to the empty string, is answered
    500 with "Gemini API key not configured", and the handler does
    nothing else: no provider call, no log line. *)
Theorem generate_summary_without_key env p fields :
  truthy (get (JObj fields) (str "transcript")) = true →
  truthy (get (JObj fields) (str "instruction")) = true →
  GEMINI_API_KEY env = None ∨ GEMINI_API_KEY env = Some [] →
  generate_summary env p (JObj fields)
  = (Ok (Response 500
           (JObj [(str "error", JStr (str "Gemini API key not configured"))])),
     []).
Proof.
  intros Ht Hi Hk. apply generate_summary_unconfigured; [done | done |].
  by destruct Hk as [-> | ->].
Qed.

Lemma generate_summary_without_key_witness :
  generate_summary
    {| GEMINI_API_KEY := Some [];
       EMAIL_USER := Some (str "test@example.com");
       EMAIL_PASS := Some (str "test-password") |}
    mock_providers summary_request
  = (Ok (Response 500
           (JObj [(str "error", JStr (str "Gemini API key not configured"))])),
     []).
Proof.
  apply generate_summary_without_key; [reflexivity | reflexivity | by right].
Defined.

(** X2. A send-email request that passes the field check while
    [EMAIL_USER] or [EMAIL_PASS] is unset, or set to the empty string,
    is answered 500 with "Email configuration not set up", and the
    handler does nothing else: no message is built or sent. *)
Theorem send_email_without_credentials env p fields x elems :
  truthy (get (JObj fields) (str "summary")) = true →
  get (JObj fields) (str "recipients") = JArr (x :: elems) →
  EMAIL_USER env = None ∨ EMAIL_USER env = Some []
  ∨ EMAIL_PASS env = None ∨ EMAIL_PASS env = Some [] →
  send_email env p (JObj fields)
  = (Ok (Response 500
           (JObj [(str "error", JStr (str "Email configuration not set up"))])),
     []).
Proof.
  intros Hs Hr He. apply (send_email_unconfigured env p fields x elems Hs Hr).
  destruct He as [-> | [-> | [-> | ->]]]; [by left | by left | by right | by right].
Qed.

Lemma send_email_without_credentials_witness :
  send_email
    {| GEMINI_API_KEY := Some (str "test-api-key");
       EMAIL_USER := Some (str "test@example.com");
       EMAIL_PASS := None |}
    mock_providers email_request
  = (Ok (Response 500
           (JObj [(str "error", JStr (str "Email configuration not set up"))])),
     []).
Proof.
  apply (send_email_without_credentials _ _ _ (JStr (str "a@x.com"))
           [JStr (str "b@x.com")]); [reflexivity | reflexivity |].
  right; right; by left.
Defined.

(** X3. The generate-summary route checks no type: a truthy
    [transcript] and [instruction] of any kind (a number, an array, a
    plain object) pass, and what the prompt embeds under each label is
    the value's string conversion.  One provider call is issued with
    that prompt, and the provider's text is answered as it is. *)
Theorem generate_summary_interpolates env p fields t i :
  truthy (get (JObj fields) (str "transcript")) = true →
  truthy (get (JObj fields) (str "instruction")) = true →
  truthy (env_value (GEMINI_API_KEY env)) = true →
  to_string (get (JObj fields) (str "transcript")) = Ok t →
  to_string (get (JObj fields) (str "instruction")) = Ok i →
  completion_calls (snd (generate_summary env p (JObj fields)))
  = [(str "gemini-1.5-flash", prompt_text t i)]
  ∧ ∀ text,
      generateContent p (str "gemini-1.5-flash") (prompt_text t i) = Ok text →
      fst (generate_summary env p (JObj fields))
      = Ok (Response 200 (JObj [(str "summary", JStr text)])).
Proof.
  intros Ht Hi Hk Hts His.
  assert (build_prompt (get (JObj fields) (str "transcript"))
            (get (JObj fields) (str "instruction")) = Ok (prompt_text t i)) as Hp.
  { unfold build_prompt. by rewrite Hts, His. }
  rewrite (generate_summary_calls env p fields _ Ht Hi Hk Hp).
  change model_name with (str "gemini-1.5-flash").
  split.
  - by destruct (generateContent p (str "gemini-1.5-flash") (prompt_text t i)).
  - by intros text ->.
Qed.

Lemma generate_summary_interpolates_witness :
  completion_calls
    (snd (generate_summary test_env mock_providers
            (JObj [(str "transcript", JNum (Num false (str "42")));
                   (str "instruction",
                    JArr [JStr (str "short"); JNull; JBool true; JObj []])])))
  = [(str "gemini-1.5-flash",
      prompt_text (str "42") (str "short,,true,[object Object]"))].
Proof.
  refine (proj1 (generate_summary_interpolates test_env mock_providers _
                   (str "42") (str "short,,true,[object Object]") _ _ _ _ _));
    reflexivity.
Defined.

(** X4. A [transcript] or [instruction] that has no string conversion
    (an object with an own [toString] property, or an array holding
    one) passes the field check, but the prompt cannot be built: the
    handler answers the generic 500 "Failed to generate summary. Please
    try again." and never calls the completion provider. *)
Theorem generate_summary_unprintable env p fields :
  truthy (get (JObj fields) (str "transcript")) = true →
  truthy (get (JObj fields) (str "instruction")) = true →
  truthy (env_value (GEMINI_API_KEY env)) = true →
  (∃ e, to_string (get (JObj fields) (str "transcript")) = Throw e)
  ∨ (∃ e, to_string (get (JObj fields) (str "instruction")) = Throw e) →
  fst (generate_summary env p (JObj fields))
  = Ok (Response 500
          (JObj [(str "error",
                  JStr (str "Failed to generate summary. Please try again."))]))
  ∧ completion_calls (snd (generate_summary env p (JObj fields))) = [].
Proof.
  intros Ht Hi Hk Hthrow.
  assert (∃ e, build_prompt (get (JObj fields) (str "transcript"))
                 (get (JObj fields) (str "instruction")) = Throw e) as [e He].
  { unfold build_prompt. destruct Hthrow as [[e He] | [e He]].
    - rewrite He. by exists e.
    - destruct (to_string (get (JObj fields) (str "transcript"))) as [t|e'];
        [rewrite He; by exists e | by exists e']. }
  by rewrite (generate_summary_conversion_throws env p fields e Ht Hi Hk He).
Qed.

Lemma generate_summary_unprintable_witness :
  fst (generate_summary test_env mock_providers
         (JObj [(str "transcript", JObj [(str "toString", JNull)]);
                (str "instruction", JStr (str "Summarize in bullet points"))]))
  = Ok (Response 500
          (JObj [(str "error",
                  JStr (str "Failed to generate summary. Please try again."))])).
Proof.
  refine (proj1 (generate_summary_unprintable test_env mock_providers
                   [(str "transcript", JObj [(str "toString", JNull)]);
                    (str "instruction", JStr (str "Summarize in bullet points"))]
                   _ _ _ _)); try reflexivity.
  left. eexists. reflexivity.
Defined.

(** X5. On the send-email route a [summary] or a recipient entry that
    has no string conversion passes the guard, but the message cannot be
    built: the handler answers the generic 500 "Failed to send email.
    Please check your email configuration." and never calls the mail
    provider. *)
Theorem send_email_unprintable env p fields x elems :
  truthy (get (JObj fields) (str "summary")) = true →
  get (JObj fields) (str "recipients") = JArr (x :: elems) →
  truthy (env_value (EMAIL_USER env)) = true →
  truthy (env_value (EMAIL_PASS env)) = true →
  (∃ e, to_string (get (JObj fields) (str "summary")) = Throw e)
  ∨ (∃ e, element_strings (x :: elems) = Throw e) →
  fst (send_email env p (JObj fields))
  = Ok (Response 500
          (JObj [(str "error",
                  JStr (str "Failed to send email. Please check your email configuration."))]))
  ∧ mail_calls (snd (send_email env p (JObj fields))) = [].
Proof.
  intros Hs Hr Hu Hp Hthrow.
  assert (∃ e, build_mailOptions env (get (JObj fields) (str "summary"))
                 (get (JObj fields) (str "recipients")) = Throw e) as [e He].
  { rewrite Hr. unfold build_mailOptions, join_recipients, join, join_by.
    fold element_strings. destruct Hthrow as [[e He] | [e He]].
    - destruct (element_strings (x :: elems)) as [ss|e'];
        [rewrite He; by exists e | by exists e'].
    - rewrite He. by exists e. }
  by rewrite (send_email_conversion_throws env p fields x elems e Hs Hr Hu Hp He).
Qed.

Lemma send_email_unprintable_witness :
  mail_calls
    (snd (send_email test_env mock_providers
            (JObj [(str "summary", JStr (str "This is a test summary."));
                   (str "recipients",
                    JArr [JStr (str "a@x.com"); JObj [(str "toString", JBool true)]])])))
  = [].
Proof.
  refine (proj2 (send_email_unprintable test_env mock_providers
                   [(str "summary", JStr (str "This is a test summary."));
                    (str "recipients",
                     JArr [JStr (str "a@x.com"); JObj [(str "toString", JBool true)]])]
                   (JStr (str "a@x.com")) [JObj [(str "toString", JBool true)]]
                   _ _ _ _ _)); try reflexivity.
  right. eexists. reflexivity.
Defined.

(** X6. Whatever the body, the environment and the provider, the
    generate-summary handler answers: no exception leaves it.  The
    status is 200, 400 or 500; the completion provider is called at most
    once; a 200 carries the text of a call that succeeded and nothing
    was logged; a 400 comes with no call and no log line; and a request
    whose body is [undefined] or [null] is answered 500 without a
    call. *)
Theorem generate_summary_always_answers env p req_body :
  ∃ r t,
    generate_summary env p req_body = (Ok r, t)
    ∧ (status r = 200 ∨ status r = 400 ∨ status r = 500)
    ∧ (length (completion_calls t) ≤ 1)%nat
    ∧ (status r = 200 →
       ∃ prompt text,
         t = [GenerateContent (str "gemini-1.5-flash") prompt]
         ∧ generateContent p (str "gemini-1.5-flash") prompt = Ok text
         ∧ body r = JObj [(str "summary", JStr text)])
    ∧ (status r = 400 → t = [])
    ∧ (req_body = JUndefined ∨ req_body = JNull →
       status r = 500 ∧ completion_calls t = []).
Proof.
  unfold generate_summary.
  destruct req_body as [| |b|n|s|elems|fields];
    cbn [destructurable]; run_handler; try answered.
  all: destruct (negb (truthy (get _ (str "transcript")))
                 || negb (truthy (get _ (str "instruction")))); try answered.
  all: destruct (negb (truthy (env_value (GEMINI_API_KEY env)))); try answered.
  all: destruct (build_prompt _ _) as [prompt|e]; run_handler; try answered.
  all: change model_name with (str "gemini-1.5-flash");
    destruct (generateContent p (str "gemini-1.5-flash") prompt) as [text|e] eqn:Hcall;
    run_handler; answered.
Qed.

(** X7. Whatever the body, the environment and the provider, the
    send-email handler answers: no exception leaves it.  The status is
    200, 400 or 500; the mail provider is called at most once; a 200
    comes after one call that succeeded; a 400 comes with no call and
    no log line; and a request whose body is [undefined] or [null] is
    answered 500 without a call. *)
Theorem send_email_always_answers env p req_body :
  ∃ r t,
    send_email env p req_body = (Ok r, t)
    ∧ (status r = 200 ∨ status r = 400 ∨ status r = 500)
    ∧ (length (mail_calls t) ≤ 1)%nat
    ∧ (status r = 200 →
       ∃ mailOptions u,
         t = [SendMail mailOptions] ∧ sendMail p mailOptions = Ok u)
    ∧ (status r = 400 → t = [])
    ∧ (req_body = JUndefined ∨ req_body = JNull →
       status r = 500 ∧ mail_calls t = []).
Proof.
  unfold send_email.
  destruct req_body as [| |b|n|s|elems|fields];
    cbn [destructurable]; run_handler; try answered.
  all: destruct (negb (truthy (get _ (str "summary")))
                 || negb (truthy (get _ (str "recipients")))
                 || negb (isArray (get _ (str "recipients")))
                 || length_is_zero (get _ (str "recipients"))); try answered.
  all: destruct (negb (truthy (env_value (EMAIL_USER env)))
                 || negb (truthy (env_value (EMAIL_PASS env)))); try answered.
  all: destruct (build_mailOptions _ _ _) as [o|e]; run_handler; try answered.
  all: destruct (sendMail p o) as [u|e] eqn:Hcall; run_handler; answered.
Qed.

(** X8. The message of a send-email request that passed the guards:
    its sender is [EMAIL_USER], its subject is "Meeting Summary -
    MangoDesk", and its HTML body is one fixed text before the summary
    and one after it, the summary between them as it is: nothing in it
    is escaped or trimmed. *)
Theorem send_email_message :
  ∃ before after,
    ∀ env p fields x elems s ss,
      truthy (get (JObj fields) (str "summary")) = true →
      get (JObj fields) (str "recipients") = JArr (x :: elems) →
      truthy (env_value (EMAIL_USER env)) = true →
      truthy (env_value (EMAIL_PASS env)) = true →
      to_string (get (JObj fields) (str "summary")) = Ok s →
      element_strings (x :: elems) = Ok ss →
      ∃ mailOptions,
        mail_calls (snd (send_email env p (JObj fields))) = [mailOptions]
        ∧ from mailOptions = env_value (EMAIL_USER env)
        ∧ subject mailOptions = str "Meeting Summary - MangoDesk"
        ∧ html mailOptions = before ++ s ++ after.
Proof.
  eexists _, _. intros env p fields x elems s ss Hs Hr Hu Hp Hsum Hel.
  pose proof (build_mailOptions_ok env fields (x :: elems) ss s Hel Hsum) as Hm.
  rewrite <- Hr in Hm.
  eexists. rewrite (send_email_calls env p fields x elems _ Hs Hr Hu Hp Hm).
  split; [by destruct (sendMail p _)|]. split; [done|]. split; [done|].
  cbn [html]. unfold html_text.
  repeat match goal with
         | |- ?a ++ ?b ++ ?c = _ =>
             lazymatch b with
             | s => fail
             | _ => rewrite (app_assoc a b c)
             end
         end.
  reflexivity.
Qed.

Lemma send_email_message_witness :
  ∃ before after mailOptions,
    mail_calls (snd (send_email test_env mock_providers
                       (JObj [(str "summary", JStr (str "<b>Q3</b> & more"));
                              (str "recipients", JArr [JStr (str "a@x.com")])])))
    = [mailOptions]
    ∧ html mailOptions = before ++ str "<b>Q3</b> & more" ++ after.
Proof.
  destruct send_email_message as (before & after & H).
  destruct (H test_env mock_providers
              [(str "summary", JStr (str "<b>Q3</b> & more"));
               (str "recipients", JArr [JStr (str "a@x.com")])]
              (JStr (str "a@x.com")) [] (str "<b>Q3</b> & more") [str "a@x.com"]
              eq_refl eq_refl eq_refl eq_refl eq_refl eq_refl)
    as (o & Hcalls & _ & _ & Hhtml).
  exists before, after, o. by split.
Defined.

(** X9. An upload that multer lets through comes back as it is: a
    named file part in the field [transcript], reported as [text/plain]
    or [application/octet-stream] and of less than 5 MiB (5242880
    bytes), is answered 200 with [transcript] equal to the bytes
    decoded, whatever they are, and nothing is logged.  This holds
    whichever way the installed parser treats a file of exactly 5 MiB,
    and no limit below the ceiling applies. *)
Theorem upload_accepted_file refuses_at_limit utf8_decode file :
  originalname file ≠ [] →
  fieldname file = str "transcript" →
  mimetype file = str "text/plain"
  ∨ mimetype file = str "application/octet-stream" →
  (N.of_nat (length (buffer file)) < 5242880)%N →
  upload_transcript refuses_at_limit utf8_decode (Some file)
  = (Ok (Response 200
           (JObj [(str "transcript", JStr (utf8_decode (buffer file)))])),
     []).
Proof.
  intros Hn Hf Hm Hsize. apply upload_accepted; try done.
  by apply limit_reached_under.
Qed.

Lemma upload_accepted_file_witness :
  upload_transcript true
    (fun bytes => (fun b => N_of_ascii (ascii_of_byte b)) <$> bytes)
    (Some {| fieldname := str "transcript";
             originalname := str "test-transcript.txt";
             mimetype := str "text/plain";
             buffer := list_byte_of_string "This is a test transcript content." |})
  = (Ok (Response 200
           (JObj [(str "transcript", JStr (str "This is a test transcript content."))])),
     []).
Proof.
  refine (upload_accepted_file true _ _ _ _ _ _);
    [discriminate | reflexivity | by left | by vm_compute].
Defined.


End ServerExtras.

(** ** The page *)

Module AppFacts.
Import Client App ClientFacts Trimmed TrimFacts.

Lemma trim_trimmed s : trimmed (trim s).
Proof. apply trim_clean. Qed.

(** The handlers that talk to the server leave the recipient list
    alone, but for a send that succeeded. *)
Lemma generateSummary_finish_book r st : book (generateSummary_finish r st) = book st.
Proof.
  unfold generateSummary_finish.
  destruct r as [|[] [data|]]; try done;
    by destruct (read data _).
Qed.

Lemma handleFileUpload_finish_book r st :
  book (handleFileUpload_finish r st) = book st.
Proof.
  unfold handleFileUpload_finish.
  destruct r as [|[] [data|]]; try done;
    by destruct (read data _).
Qed.

Lemma sendEmail_finish_book r st :
  book (sendEmail_finish r st)
  = match r with
    | Responded true (Some _) => {| recipients := []; recipientInput := [] |}
    | _ => book st
    end.
Proof.
  unfold sendEmail_finish.
  destruct r as [|[] [data|]]; try done.
  by destruct (read data _).
Qed.

Lemma generateSummary_book fetch st : book (fst (generateSummary fetch st)) = book st.
Proof.
  unfold generateSummary, generateSummary_start.
  destruct (transcript st); try done.
  destruct (_ || _); [done|]. cbn. by rewrite generateSummary_finish_book.
Qed.

Lemma uploadFile_book fetch selection st :
  book (fst (uploadFile fetch selection st)) = book st.
Proof.
  unfold uploadFile, handleFileUpload_start.
  destruct selection as [f|]; [|done].
  destruct (Client.handleFileUpload (Some (info f))); try done.
  cbn. by rewrite handleFileUpload_finish_book.
Qed.

Lemma sendEmail_book fetch st :
  book (fst (sendEmail fetch st)) = book st
  ∨ book (fst (sendEmail fetch st)) = {| recipients := []; recipientInput := [] |}.
Proof.
  unfold sendEmail, sendEmail_start.
  destruct (summary st); try (by left).
  destruct (negb _); [by left|].
  destruct (bool_decide _); [by left|].
  cbn. rewrite sendEmail_finish_book.
  destruct (fetch _) as [|[] [data|]]; first [by left | by right].
Qed.

Lemma well_kept_empty input : well_kept {| recipients := []; recipientInput := input |}.
Proof.
  split; [apply NoDup_nil_2|]. intros e He. by apply elem_of_nil in He.
Qed.

Lemma well_kept_input b text :
  well_kept b → well_kept (typeRecipient text b).
Proof. done. Qed.

Lemma well_kept_add b : well_kept b → well_kept (addRecipient b).
Proof.
  intros [Hnd Hall]. split; [by apply addRecipient_NoDup|].
  destruct (addRecipient_cases b) as [(Hne & _ & ->) | (_ & ->)]; [|done].
  cbn. intros e [He | ->%list_elem_of_singleton]%elem_of_app; [by apply Hall|].
  split; [done | apply trim_trimmed].
Qed.

Lemma well_kept_remove email b : well_kept b → well_kept (removeRecipient email b).
Proof.
  intros [Hnd Hall]. split; [by apply removeRecipient_NoDup|].
  cbn. intros e [_ He]%list_elem_of_filter. by apply Hall.
Qed.

(** One step of the page keeps the list well kept. *)
Lemma step_well_kept fetch st a :
  well_kept (book st) → well_kept (book (step fetch st a)).
Proof.
  intros Hk. destruct a as [t|t|t|t|sel| | |key|email| ]; cbn [step]; try done.
  - by rewrite uploadFile_book.
  - by rewrite generateSummary_book.
  - by apply well_kept_add.
  - unfold handleRecipientKeyPress. destruct (_ || _); [|done].
    by apply well_kept_add.
  - by apply well_kept_remove.
  - destruct (sendEmail_book fetch st) as [-> | ->];
      [done | apply well_kept_empty].
Qed.

End AppFacts.

Module AppExtras.
Import Client App ClientFacts Trimmed TrimFacts AppFacts.

(** X11. Whatever the user does to the page and whatever the server
    answers, the recipient list holds no address twice, no empty
    address, and no address with white space at either end. *)
Theorem recipients_well_kept fetch actions :
  well_kept (book (run fetch actions App.initial)).
Proof.
  unfold run.
  assert (∀ st, well_kept (book st) →
                well_kept (book (foldl (step fetch) st actions))) as Hrun.
  { induction actions as [|a actions IH]; intros st Hk; [done|].
    cbn. apply IH. by apply step_well_kept. }
  apply Hrun. apply well_kept_empty.
Qed.

(** X12. The guard of [generateSummary] is the [disabled] of its
    button: where the button is disabled a call sends nothing and only
    shows "Please provide both transcript and instruction"; where it is
    enabled a call sends one request, which carries the transcript and
    the instruction as typed, white space at the ends included. *)
Theorem generateSummary_guard fetch st :
  (generate_disabled st = Ok true →
   generateSummary fetch st
   = (setStatus (status_error "Please provide both transcript and instruction") st,
      []))
  ∧ (generate_disabled st = Ok false →
     ∃ t, transcript st = JStr t
          ∧ snd (generateSummary fetch st)
            = [PostGenerateSummary t (instruction st)]).
Proof.
  unfold generate_disabled, generateSummary, generateSummary_start.
  destruct (transcript st) as [| |b|n|t|elems|fields];
    try (by split; intros [=]).
  destruct (negb (truthy (JStr (trim t)))
            || negb (truthy (JStr (trim (instruction st)))));
    split; intros [=]; [done|]. by exists t.
Qed.

Lemma generateSummary_guard_witness :
  generateSummary (fun _ => FetchFailed)
    (setInstruction (str "bullet points") (setTranscript (JStr (str "   ")) App.initial))
  = (setStatus (status_error "Please provide both transcript and instruction")
       (setInstruction (str "bullet points")
          (setTranscript (JStr (str "   ")) App.initial)),
     []).
Proof.
  apply (proj1 (generateSummary_guard _ _)). reflexivity.
Defined.

(** X13. A summary of white space only: the summary and email sections
    are shown and, with a recipient in the list, the Send Email button
    is enabled, yet [sendEmail] sends nothing and shows "Please generate
    a summary first". *)
Theorem sendEmail_blank_summary fetch st s :
  summary st = JStr s → s ≠ [] → trim s = [] → recipients (book st) ≠ [] →
  email_section_shown st = true
  ∧ send_disabled st = false
  ∧ sendEmail fetch st
    = (setStatus (status_error "Please generate a summary first") st, []).
Proof.
  intros Hs Hne Htrim Hrec.
  unfold email_section_shown, send_disabled, sendEmail, sendEmail_start.
  rewrite Hs, Htrim. split; [by apply ModelFacts.truthy_string|].
  split; [by apply bool_decide_eq_false_2 | done].
Qed.

Lemma sendEmail_blank_summary_witness :
  sendEmail (fun _ => FetchFailed)
    (setBook {| recipients := [str "a@x.com"]; recipientInput := [] |}
       (setSummary (JStr (str "  ")) App.initial))
  = (setStatus (status_error "Please generate a summary first")
       (setBook {| recipients := [str "a@x.com"]; recipientInput := [] |}
          (setSummary (JStr (str "  ")) App.initial)),
     []).
Proof.
  refine (proj2 (proj2 (sendEmail_blank_summary _ _ (str "  ") _ _ _ _)));
    [reflexivity | discriminate | reflexivity | discriminate].
Defined.

End AppExtras.

(** ** The page and the server together *)

Module WireFacts.
Import Server ModelFacts ServerFacts TrimFacts.

Lemma nonblank_truthy s : trim s ≠ [] → truthy (JStr s) = true.
Proof. intros H. apply truthy_string. by apply trim_nonempty. Qed.

(** A body within the parser's limit reaches its route, a longer one
    reaches the error middleware instead. *)
Lemma express_json_within tr body route :
  (Wire.json_bytes tr body <= Wire.json_limit)%N →
  Wire.express_json tr body route = route body.
Proof.
  intros H. unfold Wire.express_json. apply N.ltb_ge in H. by rewrite H.
Qed.

Lemma express_json_over tr body route :
  (Wire.json_limit < Wire.json_bytes tr body)%N →
  Wire.express_json tr body route
  = (Ok (Response 500 (error_body MSG_internal)),
     [ConsoleError (str "Unhandled error:") Wire.entity_too_large]).
Proof.
  intros H. unfold Wire.express_json. apply N.ltb_lt in H. by rewrite H.
Qed.

Section Served.
Variables (env : process_env) (p : providers).

(** What the server does with a generate-summary request of the page,
    once the key is there. *)
Lemma serve_generate t i :
  truthy (JStr t) = true → truthy (JStr i) = true →
  truthy (env_value (GEMINI_API_KEY env)) = true →
  generate_summary env p
    (JObj [(str "transcript", JStr t); (str "instruction", JStr i)])
  = match generateContent p model_name (prompt_text t i) with
    | Ok text =>
        (Ok (Response 200 (JObj [(str "summary", JStr text)])),
         [GenerateContent model_name (prompt_text t i)])
    | Throw e =>
        (Ok (Response 500 (error_body MSG_generate_failed)),
         [GenerateContent model_name (prompt_text t i);
          ConsoleError (str "Error generating summary:") e])
    end.
Proof.
  intros Ht Hi Hk.
  by apply (generate_summary_calls env p
              [(str "transcript", JStr t); (str "instruction", JStr i)]).
Qed.

Lemma serve_send s r rs :
  truthy (JStr s) = true →
  truthy (env_value (EMAIL_USER env)) = true →
  truthy (env_value (EMAIL_PASS env)) = true →
  send_email env p
    (JObj [(str "summary", JStr s); (str "recipients", JArr (JStr <$> r :: rs))])
  = match sendMail p (Wire.message_of env s (r :: rs)) with
    | Ok _ =>
        (Ok (Response 200 (JObj [(str "success", JBool true);
                                 (str "message", JStr MSG_email_sent)])),
         [SendMail (Wire.message_of env s (r :: rs))])
    | Throw e =>
        (Ok (Response 500 (error_body MSG_send_failed)),
         [SendMail (Wire.message_of env s (r :: rs));
          ConsoleError (str "Error sending email:") e])
    end.
Proof.
  intros Hs Hu Hp.
  apply (send_email_calls env p
           [(str "summary", JStr s); (str "recipients", JArr (JStr <$> r :: rs))]
           (JStr r) (JStr <$> rs)); try done.
  pose proof (build_mailOptions_ok env
                [(str "summary", JStr s); (str "recipients", JArr (JStr <$> r :: rs))]
                (JStr <$> r :: rs) (r :: rs) s
                (element_strings_of_strings _) eq_refl) as Hm.
  exact Hm.
Qed.

End Served.

End WireFacts.

Module WireExtras.
Import Server ModelFacts ServerFacts TrimFacts WireFacts.

(** X14. A request that the page sends never fails the server's field
    check: whatever the environment and the provider, a
    generate-summary or send-email request that left the page is not
    answered 400. *)
Theorem sent_requests_pass_validation tr env p utf8_decode st st1 q :
  App.generateSummary_start st = Ok (st1, Some q)
  ∨ App.sendEmail_start st = Ok (st1, Some q) →
  ∃ r, fst (Wire.serve tr env p utf8_decode q) = Ok r ∧ status r ≠ 400.
Proof.
  intros [Hstart | Hstart].
  - unfold App.generateSummary_start in Hstart.
    destruct (App.transcript st) as [| |b|n|t|elems|fields]; try done.
    destruct (negb (truthy (JStr (trim t)))) eqn:Ht; [done|].
    destruct (negb (truthy (JStr (trim (App.instruction st))))) eqn:Hi; [done|].
    cbn [orb] in Hstart. injection Hstart as _ <-.
    apply negb_false_iff, truthy_string, nonblank_truthy in Ht, Hi.
    cbn [Wire.serve]. unfold Wire.express_json.
    destruct (Wire.json_limit <? _); [eexists; by split|].
    unfold Wire.generate_body.
    destruct (truthy (env_value (GEMINI_API_KEY env))) eqn:Hk.
    + rewrite (serve_generate env p _ _ Ht Hi Hk).
      destruct (generateContent p _ _); eexists; by split.
    + rewrite (generate_summary_unconfigured env p
                 [(str "transcript", JStr t);
                  (str "instruction", JStr (App.instruction st))] Ht Hi Hk).
      eexists; by split.
  - unfold App.sendEmail_start in Hstart.
    destruct (App.summary st) as [| |b|n|s|elems|fields]; try done.
    destruct (negb (truthy (JStr (trim s)))) eqn:Hs; [done|].
    destruct (Client.recipients (App.book st)) as [|r rs] eqn:Hrs; [done|].
    rewrite bool_decide_eq_false_2 in Hstart by done. injection Hstart as _ <-.
    apply negb_false_iff, truthy_string, nonblank_truthy in Hs.
    cbn [Wire.serve]. unfold Wire.express_json.
    destruct (Wire.json_limit <? _); [eexists; by split|].
    unfold Wire.email_body.
    destruct (truthy (env_value (EMAIL_USER env))) eqn:Hu;
      [destruct (truthy (env_value (EMAIL_PASS env))) eqn:Hp|].
    + rewrite (serve_send env p _ _ _ Hs Hu Hp).
      destruct (sendMail p _); eexists; by split.
    + rewrite (send_email_unconfigured env p
                 [(str "summary", JStr s);
                  (str "recipients", JArr (JStr <$> r :: rs))]
                 (JStr r) (fmap (M:=list) JStr rs) Hs eq_refl (or_intror Hp)).
      eexists; by split.
    + rewrite (send_email_unconfigured env p
                 [(str "summary", JStr s);
                  (str "recipients", JArr (JStr <$> r :: rs))]
                 (JStr r) (fmap (M:=list) JStr rs) Hs eq_refl (or_introl Hu)).
      eexists; by split.
Qed.

Lemma sent_requests_pass_validation_witness :
  ∃ r, fst (Wire.serve Wire.plain_transport Fixtures.test_env
              Fixtures.failing_providers (fun _ => [])
              (App.PostGenerateSummary (str " Team discussed Q3 roadmap. ")
                 (str "bullet points")))
       = Ok r
       ∧ status r ≠ 400.
Proof.
  apply (sent_requests_pass_validation _ _ _ _
           (App.setInstruction (str "bullet points")
              (App.setTranscript (JStr (str " Team discussed Q3 roadmap. "))
                 App.initial))
           (App.setStatus (App.status_loading "Generating summary...")
              (App.setInstruction (str "bullet points")
                 (App.setTranscript (JStr (str " Team discussed Q3 roadmap. "))
                    App.initial)))).
  left. reflexivity.
Defined.

(** Runs [generateSummary] of the page up to the [fetch]. *)
Lemma generateSummary_sends fetch st t :
  App.transcript st = JStr t → trim t ≠ [] → trim (App.instruction st) ≠ [] →
  App.generateSummary fetch st
  = (App.generateSummary_finish
       (fetch (App.PostGenerateSummary t (App.instruction st)))
       (App.setStatus (App.status_loading "Generating summary...") st),
     [App.PostGenerateSummary t (App.instruction st)]).
Proof.
  intros Ht Hnt Hni. unfold App.generateSummary, App.generateSummary_start.
  rewrite Ht. cbn [truthy].
  by rewrite !bool_decide_eq_false_2.
Qed.

Lemma sendEmail_sends fetch st s :
  App.summary st = JStr s → trim s ≠ [] → Client.recipients (App.book st) ≠ [] →
  App.sendEmail fetch st
  = (App.sendEmail_finish
       (fetch (App.PostSendEmail s (Client.recipients (App.book st))))
       (App.setStatus (App.status_loading "Sending email...") st),
     [App.PostSendEmail s (Client.recipients (App.book st))]).
Proof.
  intros Hs Hns Hr. unfold App.sendEmail, App.sendEmail_start.
  rewrite Hs. cbn [truthy].
  by rewrite !bool_decide_eq_false_2.
Qed.

(** X15. The page and the server end to end, on success.  With a
    transcript and an instruction that are not blank, a request body
    within the 10 MiB (10485760 bytes) the server's JSON parser takes, a
    configured key and a provider that returns a text for the prompt,
    [generateSummary] sends one request; the server calls the provider
    once, the prompt holding the transcript and the instruction as
    typed (the page trims only to check); and the page ends with that
    text as its summary and the banner "Summary generated
    successfully!", every other cell as it was. *)
Theorem page_generates_summary tr env p utf8_decode st t text :
  App.transcript st = JStr t →
  trim t ≠ [] → trim (App.instruction st) ≠ [] →
  (Wire.json_bytes tr (Wire.generate_body t (App.instruction st)) <= 10485760)%N →
  truthy (env_value (GEMINI_API_KEY env)) = true →
  generateContent p (str "gemini-1.5-flash") (prompt_text t (App.instruction st))
  = Ok text →
  App.generateSummary (Wire.fetch tr env p utf8_decode) st
  = ({| App.transcript := JStr t;
        App.instruction := App.instruction st;
        App.summary := JStr text;
        App.book := App.book st;
        App.status := App.status_success "Summary generated successfully!" |},
     [App.PostGenerateSummary t (App.instruction st)])
  ∧ Wire.server_trace tr env p utf8_decode
      [App.PostGenerateSummary t (App.instruction st)]
    = [GenerateContent (str "gemini-1.5-flash")
         (prompt_text t (App.instruction st))].
Proof.
  intros Ht Hnt Hni Hcap Hk Hcall.
  rewrite (generateSummary_sends _ st t Ht Hnt Hni).
  unfold Wire.server_trace, Wire.fetch. cbn [map concat Wire.serve].
  rewrite (express_json_within tr _ _ Hcap). unfold Wire.generate_body.
  rewrite (serve_generate env p t (App.instruction st)
             (nonblank_truthy _ Hnt) (nonblank_truthy _ Hni) Hk).
  change model_name with (str "gemini-1.5-flash"). rewrite Hcall.
  split; [|done].
  unfold App.setStatus, App.setSummary. cbn. by rewrite Ht.
Qed.

Lemma page_generates_summary_witness :
  App.generateSummary
    (Wire.fetch Wire.plain_transport Fixtures.test_env Fixtures.mock_providers
       (fun _ => []))
    (App.setInstruction (str "bullet points")
       (App.setTranscript (JStr (str "Team discussed Q3 roadmap.")) App.initial))
  = ({| App.transcript := JStr (str "Team discussed Q3 roadmap.");
        App.instruction := str "bullet points";
        App.summary := JStr (str "Mocked AI summary response");
        App.book := Client.initial;
        App.status := App.status_success "Summary generated successfully!" |},
     [App.PostGenerateSummary (str "Team discussed Q3 roadmap.")
        (str "bullet points")]).
Proof.
  refine (proj1 (page_generates_summary Wire.plain_transport
                   Fixtures.test_env Fixtures.mock_providers
                   (fun _ => [])
                   (App.setInstruction (str "bullet points")
                      (App.setTranscript (JStr (str "Team discussed Q3 roadmap."))
                         App.initial))
                   (str "Team discussed Q3 roadmap.")
                   (str "Mocked AI summary response") _ _ _ _ _ _));
    first [reflexivity | discriminate | by vm_compute].
Defined.

(** X16. When the server's answer is not ok the page shows the
    server's own message, not its fallback.  For a request within the
    JSON parser's limit: with no key the banner reads "Gemini API key
    not configured", and when the completion call the handler issues on
    the request's prompt is rejected it reads "Failed to generate
    summary. Please try again.".  For a request over the limit the
    parser's error reaches the error middleware and the banner reads
    "Internal server error".  In all three one request was sent and the
    summary, the transcript, the instruction and the recipient list are
    as they were. *)
Theorem page_shows_server_error tr env p utf8_decode st t :
  App.transcript st = JStr t →
  trim t ≠ [] → trim (App.instruction st) ≠ [] →
  let size := Wire.json_bytes tr (Wire.generate_body t (App.instruction st)) in
  let shows message :=
    App.generateSummary (Wire.fetch tr env p utf8_decode) st
    = (App.setStatus (App.MkStatus (Some App.StatusError) (JStr message)) st,
       [App.PostGenerateSummary t (App.instruction st)]) in
  ((size <= 10485760)%N →
   truthy (env_value (GEMINI_API_KEY env)) = false →
   shows (str "Gemini API key not configured"))
  ∧ (∀ e, (size <= 10485760)%N →
          truthy (env_value (GEMINI_API_KEY env)) = true →
          generateContent p (str "gemini-1.5-flash")
            (prompt_text t (App.instruction st)) = Throw e →
          shows (str "Failed to generate summary. Please try again."))
  ∧ ((10485760 < size)%N → shows (str "Internal server error")).
Proof.
  intros Ht Hnt Hni size shows. subst shows. cbn beta.
  rewrite (generateSummary_sends _ st t Ht Hnt Hni).
  unfold Wire.fetch. cbn [fst Wire.serve].
  split; [|split].
  - intros Hcap Hk.
    rewrite (express_json_within tr _ _ Hcap). unfold Wire.generate_body.
    by rewrite (generate_summary_unconfigured env p
                  [(str "transcript", JStr t);
                   (str "instruction", JStr (App.instruction st))]
                  (nonblank_truthy _ Hnt) (nonblank_truthy _ Hni) Hk).
  - intros e Hcap Hk Hfail.
    rewrite (express_json_within tr _ _ Hcap). unfold Wire.generate_body.
    rewrite (serve_generate env p t (App.instruction st)
               (nonblank_truthy _ Hnt) (nonblank_truthy _ Hni) Hk).
    change model_name with (str "gemini-1.5-flash"). by rewrite Hfail.
  - intros Hover. by rewrite (express_json_over tr _ _ Hover).
Qed.

Lemma page_shows_server_error_witness :
  App.generateSummary
    (Wire.fetch Wire.plain_transport Fixtures.test_env Fixtures.failing_providers
       (fun _ => []))
    (App.setInstruction (str "bullet points")
       (App.setTranscript (JStr (str "Team discussed Q3 roadmap.")) App.initial))
  = (App.setStatus
       (App.MkStatus (Some App.StatusError)
          (JStr (str "Failed to generate summary. Please try again.")))
       (App.setInstruction (str "bullet points")
          (App.setTranscript (JStr (str "Team discussed Q3 roadmap.")) App.initial)),
     [App.PostGenerateSummary (str "Team discussed Q3 roadmap.")
        (str "bullet points")]).
Proof.
  refine (proj1 (proj2 (page_shows_server_error Wire.plain_transport
                          Fixtures.test_env Fixtures.failing_providers
                          (fun _ => [])
                          (App.setInstruction (str "bullet points")
                             (App.setTranscript
                                (JStr (str "Team discussed Q3 roadmap."))
                                App.initial))
                          (str "Team discussed Q3 roadmap.") _ _ _)) _ _ _ _);
    first [reflexivity | discriminate | by vm_compute].
Defined.

(** X17. Sending, end to end.  With a summary that is not blank, a
    recipient list that is not empty, a request body within the 10 MiB
    the server's JSON parser takes and configured credentials,
    [sendEmail] sends one request and the server hands the mail provider
    one message: to all the recipients of the list joined by a comma and
    a space, with the summary as it stands in the page inside the HTML
    body.  When the provider accepts that message the page empties the
    recipient list and the recipient field and shows "Email sent
    successfully!"; when the provider rejects it the list is kept and
    the banner is the server's "Failed to send email. Please check your
    email configuration.". *)
Theorem page_sends_email tr env p utf8_decode st s :
  App.summary st = JStr s →
  trim s ≠ [] → Client.recipients (App.book st) ≠ [] →
  (Wire.json_bytes tr (Wire.email_body s (Client.recipients (App.book st)))
   <= 10485760)%N →
  truthy (env_value (EMAIL_USER env)) = true →
  truthy (env_value (EMAIL_PASS env)) = true →
  let q := App.PostSendEmail s (Client.recipients (App.book st)) in
  let message := Wire.message_of env s (Client.recipients (App.book st)) in
  snd (App.sendEmail (Wire.fetch tr env p utf8_decode) st) = [q]
  ∧ mail_calls (Wire.server_trace tr env p utf8_decode [q]) = [message]
  ∧ (∀ u, sendMail p message = Ok u →
          fst (App.sendEmail (Wire.fetch tr env p utf8_decode) st)
          = {| App.transcript := App.transcript st;
               App.instruction := App.instruction st;
               App.summary := JStr s;
               App.book := {| Client.recipients := []; Client.recipientInput := [] |};
               App.status := App.status_success "Email sent successfully!" |})
  ∧ (∀ e, sendMail p message = Throw e →
          fst (App.sendEmail (Wire.fetch tr env p utf8_decode) st)
          = App.setStatus
              (App.MkStatus (Some App.StatusError)
                 (JStr (str "Failed to send email. Please check your email configuration.")))
              st).
Proof.
  intros Hs Hns Hr Hcap Hu Hp q message. subst q message.
  rewrite (sendEmail_sends _ st s Hs Hns Hr).
  unfold Wire.server_trace, Wire.fetch.
  cbn [fst snd map concat Wire.serve].
  rewrite (express_json_within tr _ _ Hcap).
  destruct (Client.recipients (App.book st)) as [|r rs] eqn:Hrs; [done|].
  unfold Wire.email_body.
  rewrite (serve_send env p s r rs (nonblank_truthy _ Hns) Hu Hp).
  split; [done|]. split; [by destruct (sendMail p _)|].
  split.
  - intros u ->. unfold App.setStatus, App.setBook. cbn. by rewrite Hs.
  - by intros e ->.
Qed.

Lemma page_sends_email_witness :
  mail_calls
    (Wire.server_trace Wire.plain_transport Fixtures.test_env
       Fixtures.mock_providers (fun _ => [])
       [App.PostSendEmail (str "- Q3 roadmap reviewed") [str "a@x.com"; str "b@x.com"]])
  = [{| from := JStr (str "test@example.com");
        to := str "a@x.com, b@x.com";
        subject := str "Meeting Summary - MangoDesk";
        html := html_text (str "- Q3 roadmap reviewed") |}].
Proof.
  refine (proj1 (proj2 (page_sends_email Wire.plain_transport
                          Fixtures.test_env Fixtures.mock_providers
                          (fun _ => [])
                          (App.setBook
                             {| Client.recipients := [str "a@x.com"; str "b@x.com"];
                                Client.recipientInput := [] |}
                             (App.setSummary (JStr (str "- Q3 roadmap reviewed"))
                                App.initial))
                          (str "- Q3 roadmap reviewed") _ _ _ _ _ _)));
    first [reflexivity | discriminate | by vm_compute].
Defined.

(** The page's check lets a file through when its type is [text/plain]
    or its name ends in [.txt]. *)
Lemma handleFileUpload_posts (f : Client.file) :
  Client.type f = str "text/plain" ∨ str ".txt" `suffix_of` Client.name f →
  Client.handleFileUpload (Some f) = Client.PostFile f.
Proof.
  intros Hfile. unfold Client.handleFileUpload, strict_eq, endsWith.
  destruct Hfile as [-> | Hsuf]; [done|].
  rewrite (bool_decide_eq_true_2 _ Hsuf). cbn [negb]. by rewrite andb_false_r.
Qed.

(** X18. Uploading, end to end.  A file that passes the page's check
    (its type is [text/plain] or its name ends in [.txt]), that reaches
    the server with a name and reported as [text/plain] or
    [application/octet-stream], and that has less than 5242880 bytes,
    passes the server's filter too: one request is sent, and the page
    ends with the decoded content as its transcript and the banner
    "File uploaded successfully!", every other cell as it was.  This
    holds whichever way the installed parser treats a file of exactly
    5242880 bytes. *)
Theorem page_uploads_transcript tr env p utf8_decode st f :
  Client.type (App.info f) = str "text/plain"
  ∨ str ".txt" `suffix_of` Client.name (App.info f) →
  Wire.reported_name tr (Client.name (App.info f)) ≠ [] →
  Wire.reported_type tr (Client.type (App.info f)) = str "text/plain"
  ∨ Wire.reported_type tr (Client.type (App.info f)) = str "application/octet-stream" →
  (N.of_nat (length (App.content f)) < 5242880)%N →
  App.uploadFile (Wire.fetch tr env p utf8_decode) (Some f) st
  = ({| App.transcript := JStr (utf8_decode (App.content f));
        App.instruction := App.instruction st;
        App.summary := App.summary st;
        App.book := App.book st;
        App.status := App.status_success "File uploaded successfully!" |},
     [App.PostUploadTranscript f]).
Proof.
  intros Hfile Hname Htype Hsize.
  assert (upload_transcript (Wire.refuses_at_limit tr) utf8_decode
            (Some (Wire.part_of tr f))
          = (Ok (Response 200
                   (JObj [(str "transcript", JStr (utf8_decode (App.content f)))])),
             [])) as Hserver.
  { apply (upload_accepted _ utf8_decode (Wire.part_of tr f)); try done.
    by apply limit_reached_under. }
  unfold App.uploadFile, App.handleFileUpload_start.
  rewrite (handleFileUpload_posts _ Hfile).
  unfold Wire.fetch. cbn [Wire.serve]. rewrite Hserver. reflexivity.
Qed.

Lemma page_uploads_transcript_witness :
  App.uploadFile
    (Wire.fetch Wire.plain_transport Fixtures.test_env Fixtures.mock_providers
       (fun bytes => (fun b => N_of_ascii (ascii_of_byte b)) <$> bytes))
    (Some {| App.info := Client.File [] (str "notes.txt");
             App.content := list_byte_of_string "Team discussed Q3 roadmap." |})
    App.initial
  = ({| App.transcript := JStr (str "Team discussed Q3 roadmap.");
        App.instruction := [];
        App.summary := JStr [];
        App.book := Client.initial;
        App.status := App.status_success "File uploaded successfully!" |},
     [App.PostUploadTranscript
        {| App.info := Client.File [] (str "notes.txt");
           App.content := list_byte_of_string "Team discussed Q3 roadmap." |}])
  ∧ App.uploadFile
      (Wire.fetch Wire.plain_transport Fixtures.test_env Fixtures.mock_providers
         (fun bytes => (fun b => N_of_ascii (ascii_of_byte b)) <$> bytes))
      (Some {| App.info := Client.File (str "text/plain;charset=utf-8")
                             (str "notes.txt");
               App.content := list_byte_of_string "Q3" |})
      App.initial
    = ({| App.transcript := JStr (str "Q3");
          App.instruction := [];
          App.summary := JStr [];
          App.book := Client.initial;
          App.status := App.status_success "File uploaded successfully!" |},
       [App.PostUploadTranscript
          {| App.info := Client.File (str "text/plain;charset=utf-8")
                           (str "notes.txt");
             App.content := list_byte_of_string "Q3" |}]).
Proof.
  split.
  - refine (page_uploads_transcript Wire.plain_transport _ _ _ App.initial
              {| App.info := Client.File [] (str "notes.txt");
                 App.content := list_byte_of_string "Team discussed Q3 roadmap." |}
              _ _ _ _).
    + right. by exists (str "notes").
    + discriminate.
    + right. reflexivity.
    + by vm_compute.
  - refine (page_uploads_transcript Wire.plain_transport _ _ _ App.initial
              {| App.info := Client.File (str "text/plain;charset=utf-8")
                               (str "notes.txt");
                 App.content := list_byte_of_string "Q3" |}
              _ _ _ _).
    + right. by exists (str "notes").
    + discriminate.
    + left. reflexivity.
    + by vm_compute.
Defined.

(** X19. A file that the page lets through and the server refuses: when
    the file passes the page's check (its type is [text/plain] or its
    name ends in [.txt]) and reaches the server with a name and a
    reported type that is neither [text/plain] nor
    [application/octet-stream], one request is sent, the server's
    filter refuses it, and the page shows "Internal server error" and
    keeps its transcript. *)
Theorem page_upload_refused tr env p utf8_decode st f :
  Client.type (App.info f) = str "text/plain"
  ∨ str ".txt" `suffix_of` Client.name (App.info f) →
  Wire.reported_name tr (Client.name (App.info f)) ≠ [] →
  Wire.reported_type tr (Client.type (App.info f)) ≠ str "text/plain" →
  Wire.reported_type tr (Client.type (App.info f)) ≠ str "application/octet-stream" →
  App.uploadFile (Wire.fetch tr env p utf8_decode) (Some f) st
  = (App.setStatus
       (App.MkStatus (Some App.StatusError) (JStr (str "Internal server error"))) st,
     [App.PostUploadTranscript f]).
Proof.
  intros Hfile Hname Hplain Hoctet.
  assert (upload_transcript (Wire.refuses_at_limit tr) utf8_decode
            (Some (Wire.part_of tr f))
          = (Ok (Response 500 (error_body MSG_internal)),
             [ConsoleError (str "Unhandled error:") (Error MSG_only_txt)]))
    as Hserver.
  { apply (upload_refused_by_filter _ utf8_decode (Wire.part_of tr f)); try done.
    unfold fileFilter. cbn [mimetype Wire.part_of]. unfold strict_eq.
    by rewrite (bool_decide_eq_false_2 _ Hplain), (bool_decide_eq_false_2 _ Hoctet). }
  unfold App.uploadFile, App.handleFileUpload_start.
  rewrite (handleFileUpload_posts _ Hfile).
  unfold Wire.fetch. cbn [Wire.serve]. rewrite Hserver. reflexivity.
Qed.

Lemma page_upload_refused_witness :
  App.uploadFile
    (Wire.fetch Wire.plain_transport Fixtures.test_env Fixtures.mock_providers
       (fun _ => []))
    (Some {| App.info := Client.File (str "application/pdf") (str "notes.txt");
             App.content := [] |})
    App.initial
  = (App.setStatus
       (App.MkStatus (Some App.StatusError) (JStr (str "Internal server error")))
       App.initial,
     [App.PostUploadTranscript
        {| App.info := Client.File (str "application/pdf") (str "notes.txt");
           App.content := [] |}]).
Proof.
  refine (page_upload_refused Wire.plain_transport _ _ _ App.initial
            {| App.info := Client.File (str "application/pdf") (str "notes.txt");
               App.content := [] |} _ _ _ _);
    first [by right; exists (str "notes") | discriminate].
Defined.

End WireExtras.
